(** * The session-identity cache and the account-settings controller

    A shallow embedding of [services/userCache.ts] (the module-level cache
    with its listener set) and of the state handling of
    [AccountSettingsPage.tsx] (subscription callback, initial fetch and
    [handleSubmit]), followed by the properties of the specification.

    Conventions.
    - A listener is a JavaScript function; the cache only ever uses its
      identity (as a [Set] element) and calls it.  A listener is therefore
      a number (its identity) and its body is given by a behaviour table:
      the calls the body makes back into the cache.
    - [Set] is modelled as ECMAScript specifies it: an entry list in
      insertion order in which [delete] leaves an empty slot and [forEach]
      walks by index, re-reading the list at every step.
    - Calls nest on the JavaScript stack; the embedding nests them as
      recursive calls of one interpreter, bounded by fuel (running out of
      fuel is the stack overflow / divergence of the program). *)

From stdpp Require Import base option list strings gmap.


(** ** Data *)

Module Types.

(** Modelled from the spec: the [User] record of [../types], which is not
    among the sources: unique identifier, username, email and an optional
    avatar reference. *)
Record User : Type := mkUser {
  id : Z;
  username : string;
  email : string;
  avatar : option string
}.

End Types.

Abbreviation User := Types.User.

(** ** services/userCache.ts *)

Module UserCache.

(** Identity of a listener function. *)
Definition Listener : Type := nat.

(** What a listener body can do to the cache: the four entry points that
    change it, [subscribe] and the closure [subscribe] returned for a
    listener. *)
Inductive Action : Type :=
| ASetCurrentUser (user : option User)
| AClear
| ASubscribe (listener : Listener)
| AUnsubscribe (listener : Listener).

(** The log of what happened, oldest first.  [EvCall l v] is the call
    [l(v)]; [EvNotifyBegin]/[EvNotifyEnd] bracket one run of [notify];
    [EvUnsub l] is a call of the closure returned by [subscribe(l)]. *)
Inductive Event : Type :=
| EvNotifyBegin
| EvNotifyEnd
| EvCall (listener : Listener) (value : option User)
| EvUnsub (listener : Listener).

(** The module state: [cachedUser], the entry list of the [listeners] set
    ([None] is a deleted entry) and the log. *)
Record Store : Type := mkStore {
  cachedUser : option User;
  listeners : list (option Listener);
  trace : list Event
}.

(** The body of listener [l], called with [v] after the events [tr], makes
    the calls [b l tr v] into the cache, in order. *)
Definition Behaviour : Type := Listener → list Event → option User → list Action.

(** [Set.prototype.add]: append unless already present. *)
Definition set_add (l : Listener) (es : list (option Listener)) : list (option Listener) :=
  if decide (Some l ∈ es) then es else es ++ [Some l].

(** [Set.prototype.delete]: the first entry equal to [l] becomes empty. *)
Fixpoint set_delete (l : Listener) (es : list (option Listener)) : list (option Listener) :=
  match es with
  | [] => []
  | e :: r => if decide (e = Some l) then None :: r else e :: set_delete l r
  end.

Definition log (e : Event) (s : Store) : Store :=
  {| cachedUser := cachedUser s; listeners := listeners s; trace := trace s ++ [e] |}.

Definition assign (u : option User) (s : Store) : Store :=
  {| cachedUser := u; listeners := listeners s; trace := trace s |}.

Definition add (l : Listener) (s : Store) : Store :=
  {| cachedUser := cachedUser s; listeners := set_add l (listeners s); trace := trace s |}.

Definition delete_listener (l : Listener) (s : Store) : Store :=
  {| cachedUser := cachedUser s; listeners := set_delete l (listeners s); trace := trace s |}.

(** The pieces of code that can be running. *)
Inductive Task : Type :=
| TAct (a : Action)            (* one call into the cache *)
| TNotify                      (* [notify()] *)
| TForEach (i : nat)           (* [listeners.forEach], about to read entry [i] *)
| TCall (l : Listener)         (* [listener(cachedUser)] *)
| TBody (acts : list Action).  (* the rest of a listener body *)

Section Run.

Variable behav : Behaviour.

(** The interpreter.  Every call costs one unit of fuel. *)
Fixpoint run (fuel : nat) (t : Task) (s : Store) : option Store :=
  match fuel with
  | O => None
  | S fuel =>
    match t with
    | TAct (ASetCurrentUser user) => run fuel TNotify (assign user s)
    | TAct AClear => run fuel TNotify (assign None s)
    | TAct (ASubscribe l) => run fuel (TCall l) (add l s)
    | TAct (AUnsubscribe l) => Some (delete_listener l (log (EvUnsub l) s))
    | TNotify =>
      match run fuel (TForEach 0) (log EvNotifyBegin s) with
      | Some s' => Some (log EvNotifyEnd s')
      | None => None
      end
    | TForEach i =>
      match listeners s !! i with
      | None => Some s
      | Some None => run fuel (TForEach (S i)) s
      | Some (Some l) =>
        match run fuel (TCall l) s with
        | Some s' => run fuel (TForEach (S i)) s'
        | None => None
        end
      end
    | TCall l =>
      run fuel (TBody (behav l (trace s) (cachedUser s))) (log (EvCall l (cachedUser s)) s)
    | TBody [] => Some s
    | TBody (a :: acts) =>
      match run fuel (TAct a) s with
      | Some s' => run fuel (TBody acts) s'
      | None => None
      end
    end
  end.

(** The exported object. *)
Definition getCurrentUser (s : Store) : option User := cachedUser s.

Definition notify (fuel : nat) (s : Store) : option Store := run fuel TNotify s.

Definition setCurrentUser (fuel : nat) (user : option User) (s : Store) : option Store :=
  run fuel (TAct (ASetCurrentUser user)) s.

Definition subscribe (fuel : nat) (listener : Listener) (s : Store) : option Store :=
  run fuel (TAct (ASubscribe listener)) s.

Definition unsubscribe (fuel : nat) (listener : Listener) (s : Store) : option Store :=
  run fuel (TAct (AUnsubscribe listener)) s.

Definition clear (fuel : nat) (s : Store) : option Store :=
  run fuel (TAct AClear) s.

End Run.

(** The state of a freshly loaded module. *)
Definition initial : Store := {| cachedUser := None; listeners := []; trace := [] |}.

(** The events logged between [s] and a later [s']. *)
Definition events_since (s s' : Store) : list Event := drop (length (trace s)) (trace s').

(** A listener set is well formed when no listener occurs twice. *)
Definition live (es : list (option Listener)) : list Listener := omap (λ e, e) es.

Definition wf (s : Store) : Prop := NoDup (live (listeners s)).

(** The values listener [l] was called with in a stretch of the log. *)
Fixpoint calls_of (l : Listener) (tr : list Event) : list (option User) :=
  match tr with
  | [] => []
  | EvCall l' v :: r => if decide (l' = l) then v :: calls_of l r else calls_of l r
  | _ :: r => calls_of l r
  end.

(** Does a run of [notify] start while another one is still in progress?
    [depth] counts the runs in progress. *)
Fixpoint nested_fanout (depth : nat) (tr : list Event) : bool :=
  match tr with
  | [] => false
  | EvNotifyBegin :: r => bool_decide (0 < depth) || nested_fanout (S depth) r
  | EvNotifyEnd :: r => nested_fanout (pred depth) r
  | _ :: r => nested_fanout depth r
  end.

(** The stretch of a log before the first run of [notify] begins. *)
Fixpoint before_first_notify (tr : list Event) : list Event :=
  match tr with
  | [] => []
  | EvNotifyBegin :: _ => []
  | e :: r => e :: before_first_notify r
  end.

(** Once the closure returned by [subscribe(l)] has been called, [l] is
    not called any more. *)
Definition quiet_after_unsub (l : Listener) (tr : list Event) : Prop :=
  ∀ a b, tr = a ++ EvUnsub l :: b → calls_of l b = [].

(** [setCurrentUser(user)] and [clear()] are the two mutations. *)
Definition mutation (a : Action) : option (option User) :=
  match a with
  | ASetCurrentUser user => Some user
  | AClear => Some None
  | _ => None
  end.

(** Code that neither is a direct call of [l] nor subscribes [l]. *)
Definition apart_from (l : Listener) (t : Task) : Prop :=
  match t with
  | TAct (ASubscribe l') => l' ≠ l
  | TCall l' => l' ≠ l
  | TBody acts => ASubscribe l ∉ acts
  | _ => True
  end.

(** No body ever subscribes [l]. *)
Definition never_subscribes (b : Behaviour) (l : Listener) : Prop :=
  ∀ l' tr v, ASubscribe l ∉ b l' tr v.

(** Code that, besides, is not the loop of a fan-out in progress. *)
Definition outside_fanout (l : Listener) (t : Task) : Prop :=
  match t with
  | TForEach _ => False
  | _ => apart_from l t
  end.

(** What one run of [notify] logs when no listener calls back into the
    cache: every live listener, in insertion order, called with [u]. *)
Definition fanout (u : option User) (es : list (option Listener)) : list Event :=
  EvNotifyBegin :: map (λ l, EvCall l u) (live es) ++ [EvNotifyEnd].

(** No body calls [setCurrentUser] or [clear]. *)
Definition no_mutation (b : Behaviour) : Prop :=
  ∀ l tr v a, a ∈ b l tr v → mutation a = None.

(** Code that does not itself call [setCurrentUser] or [clear]. *)
Definition reads_only (t : Task) : Prop :=
  match t with
  | TAct a => mutation a = None
  | TBody acts => ∀ a, a ∈ acts → mutation a = None
  | _ => True
  end.

(** A behaviour table in which no body calls into the cache. *)
Definition passive (b : Behaviour) : Prop := ∀ l tr v, b l tr v = [].

Definition silent : Behaviour := λ _ _ _, [].

End UserCache.

(** ** pages/AccountSettingsPage.tsx *)

Module AccountSettings.

Import UserCache.

#[local] Open Scope string_scope.
#[local] Open Scope nat_scope.

(** JavaScript truthiness of a string, [a || b] and [a ?? b]. *)
Definition truthy (s : string) : bool := bool_decide (s ≠ "").

Definition or_else (a b : string) : string := if truthy a then a else b.

Definition nullish (a : option string) (b : string) : string :=
  match a with Some x => x | None => b end.

(** [defaultFormState] and the type it returns. *)
Record FormState : Type := mkForm {
  username : string;
  email : string;
  avatar : string;
  password : string;
  passwordConfirmation : string
}.

Definition defaultFormState (user : option User) : FormState :=
  {| username := match user with Some u => Types.username u | None => "" end;
     email := match user with Some u => Types.email u | None => "" end;
     avatar := match user with Some u => nullish (Types.avatar u) "" | None => "" end;
     password := "";
     passwordConfirmation := "" |}.

(** [keyof FormState]. *)
Inductive Field : Type := FUsername | FEmail | FAvatar | FPassword | FPasswordConfirmation.

Definition field_name (f : Field) : string :=
  match f with
  | FUsername => "username"
  | FEmail => "email"
  | FAvatar => "avatar"
  | FPassword => "password"
  | FPasswordConfirmation => "passwordConfirmation"
  end.

Definition own_keys : list string := map field_name [FUsername; FEmail; FAvatar; FPassword; FPasswordConfirmation].

(** The property names every plain object inherits from [Object.prototype];
    the [in] operator sees them too. *)
Definition object_prototype_keys : list string :=
  [ "constructor"; "__defineGetter__"; "__defineSetter__"; "hasOwnProperty";
    "__lookupGetter__"; "__lookupSetter__"; "isPrototypeOf"; "propertyIsEnumerable";
    "toString"; "valueOf"; "__proto__"; "toLocaleString" ].

(** [key in formState]. *)
Definition key_in_formState (key : string) : bool :=
  bool_decide (key ∈ own_keys) || bool_decide (key ∈ object_prototype_keys).

(** [FieldErrorMap]: the own properties of the object. *)
Abbreviation FieldErrorMap := (gmap string string).

(** [obj[key] = message] on a plain object: an own property is created or
    overwritten, except for [__proto__], whose inherited setter ignores a
    string. *)
Definition assign_property (key message : string) (obj : FieldErrorMap) : FieldErrorMap :=
  if bool_decide (key = "__proto__") then obj else <[key := message]> obj.

(** [UpdateCurrentUserRequest]; [payload_avatar = Some None] is the explicit
    [null]. *)
Record UpdateCurrentUserRequest : Type := mkPayload {
  payload_username : option string;
  payload_email : option string;
  payload_avatar : option (option string);
  payload_password : option string;
  payload_password_confirmation : option string
}.

(** [Object.keys(payload).length]. *)
Definition keys_length (p : UpdateCurrentUserRequest) : nat :=
  (if payload_username p is Some _ then 1 else 0) + (if payload_email p is Some _ then 1 else 0) +
  (if payload_avatar p is Some _ then 1 else 0) + (if payload_password p is Some _ then 1 else 0) +
  (if payload_password_confirmation p is Some _ then 1 else 0).

(** What the external service can answer.  The declared shape of
    [error.response.data] is an optional [error] and an optional [errors]
    record, the latter given as [Object.entries] lists it.  The source
    casts the body to that shape without a check: a body that is [null] or
    [undefined] is [None] below, and reading [data.errors] from it throws.
    (A body that is a string or a number reads like an object with neither
    property.) *)
Inductive Messages : Type :=
| One (message : string)
| Many (messages : list string).

Record ErrorData : Type := mkData {
  data_error : option string;
  data_errors : option (list (string * Messages))
}.

Inductive Failure : Type :=
| AxiosResponse (status : Z) (data : option ErrorData)
    (* [isAxiosError(error) && error.response] *)
| OtherFailure.

Inductive Request : Type :=
| GetCurrentUser
| UpdateCurrentUser (payload : UpdateCurrentUserRequest).

(** The state of one mounted component: the [useState] cells, the ref and
    the [isMounted] flag of the effect. *)
Record Ctrl : Type := mkCtrl {
  currentUser : option User;
  formState : FormState;
  isLoading : bool;
  isSubmitting : bool;
  fieldErrors : FieldErrorMap;
  successMessage : string;
  loadError : string;
  hasInitializedRef : bool;
  isMounted : bool
}.

Definition setCurrentUser (x : option User) (c : Ctrl) : Ctrl :=
  mkCtrl x (formState c) (isLoading c) (isSubmitting c) (fieldErrors c)
         (successMessage c) (loadError c) (hasInitializedRef c) (isMounted c).

Definition setFormState (f : FormState → FormState) (c : Ctrl) : Ctrl :=
  mkCtrl (currentUser c) (f (formState c)) (isLoading c) (isSubmitting c) (fieldErrors c)
         (successMessage c) (loadError c) (hasInitializedRef c) (isMounted c).

Definition setIsLoading (x : bool) (c : Ctrl) : Ctrl :=
  mkCtrl (currentUser c) (formState c) x (isSubmitting c) (fieldErrors c)
         (successMessage c) (loadError c) (hasInitializedRef c) (isMounted c).

Definition setIsSubmitting (x : bool) (c : Ctrl) : Ctrl :=
  mkCtrl (currentUser c) (formState c) (isLoading c) x (fieldErrors c)
         (successMessage c) (loadError c) (hasInitializedRef c) (isMounted c).

Definition setFieldErrors (x : FieldErrorMap) (c : Ctrl) : Ctrl :=
  mkCtrl (currentUser c) (formState c) (isLoading c) (isSubmitting c) x
         (successMessage c) (loadError c) (hasInitializedRef c) (isMounted c).

Definition setSuccessMessage (x : string) (c : Ctrl) : Ctrl :=
  mkCtrl (currentUser c) (formState c) (isLoading c) (isSubmitting c) (fieldErrors c)
         x (loadError c) (hasInitializedRef c) (isMounted c).

Definition setLoadError (x : string) (c : Ctrl) : Ctrl :=
  mkCtrl (currentUser c) (formState c) (isLoading c) (isSubmitting c) (fieldErrors c)
         (successMessage c) x (hasInitializedRef c) (isMounted c).

Definition setHasInitialized (x : bool) (c : Ctrl) : Ctrl :=
  mkCtrl (currentUser c) (formState c) (isLoading c) (isSubmitting c) (fieldErrors c)
         (successMessage c) (loadError c) x (isMounted c).

Definition setIsMounted (x : bool) (c : Ctrl) : Ctrl :=
  mkCtrl (currentUser c) (formState c) (isLoading c) (isSubmitting c) (fieldErrors c)
         (successMessage c) (loadError c) (hasInitializedRef c) x.

(** The component together with what it shares with the rest of the
    process: the cache, the paths passed to [navigate] and the requests
    sent to the external service, oldest first. *)
Record World : Type := mkWorld {
  ctrl : Ctrl;
  cache : Store;
  navigated : list string;
  requests : list Request
}.

Definition with_ctrl (c : Ctrl) (w : World) : World :=
  mkWorld c (cache w) (navigated w) (requests w).

(** The first render, lines 23 to 31. *)
Definition render_initial (s : Store) : Ctrl :=
  let cachedUser := getCurrentUser s in
  {| currentUser := cachedUser;
     formState := defaultFormState cachedUser;
     isLoading := negb (bool_decide (is_Some cachedUser));
     isSubmitting := false;
     fieldErrors := ∅;
     successMessage := "";
     loadError := "";
     hasInitializedRef := bool_decide (is_Some cachedUser);
     isMounted := false |}.

(** The subscription callback, lines 36 to 58. *)
Definition onUserChange (nextUser : option User) (c : Ctrl) : Ctrl :=
  if negb (isMounted c) then c else
  let c := setCurrentUser nextUser c in
  let c := if bool_decide (is_Some nextUser) then setIsLoading false (setLoadError "" c) else c in
  let c := if bool_decide (is_Some nextUser) && negb (hasInitializedRef c)
           then setHasInitialized true (setFormState (λ _, defaultFormState nextUser) c)
           else c in
  if negb (bool_decide (is_Some nextUser))
  then setFormState (λ _, defaultFormState None) (setIsLoading false (setHasInitialized false c))
  else c.

(** [handleFieldChange(field)(event)]. *)
Definition handleFieldChange (field : Field) (value : string) (c : Ctrl) : Ctrl :=
  setFormState (λ previous,
    match field with
    | FUsername => mkForm value (email previous) (avatar previous) (password previous) (passwordConfirmation previous)
    | FEmail => mkForm (username previous) value (avatar previous) (password previous) (passwordConfirmation previous)
    | FAvatar => mkForm (username previous) (email previous) value (password previous) (passwordConfirmation previous)
    | FPassword => mkForm (username previous) (email previous) (avatar previous) value (passwordConfirmation previous)
    | FPasswordConfirmation => mkForm (username previous) (email previous) (avatar previous) (password previous) value
    end) c.

(** [formState[field]]. *)
Definition field_value (field : Field) (f : FormState) : string :=
  match field with
  | FUsername => username f
  | FEmail => email f
  | FAvatar => avatar f
  | FPassword => password f
  | FPasswordConfirmation => passwordConfirmation f
  end.

(** [resetPasswordFields]. *)
Definition resetPasswordFields (c : Ctrl) : Ctrl :=
  setFormState (λ previous,
    mkForm (username previous) (email previous) (avatar previous) "" "") c.

Definition hasPasswordChanges (f : FormState) : bool :=
  bool_decide (0 < String.length (password f)) || bool_decide (0 < String.length (passwordConfirmation f)).

(** [value.join(' ')] or the string itself. *)
Definition message_of (value : Messages) : string :=
  match value with
  | One s => s
  | Many l => String.concat " " l
  end.

(** The loop of lines 193 to 202 over [Object.entries(data.errors)]. *)
Definition map_entry (validationErrors : FieldErrorMap) (entry : string * Messages) : FieldErrorMap :=
  let '(key, value) := entry in
  let message := message_of value in
  if bool_decide (key = "password_confirmation")
  then <["passwordConfirmation" := message]> validationErrors
  else if key_in_formState key
  then assign_property key message validationErrors
  else <["general" := message]> validationErrors.

(** The slot the specification gives a key of the server's error record:
    the confirmation field for its alias, the field itself for the name
    of a form field, the general slot for anything else. *)
Definition slot_of (key : string) : string :=
  if bool_decide (key = "password_confirmation") then "passwordConfirmation"
  else if bool_decide (key ∈ own_keys) then key
  else "general".

(** Lines 190 to 207. *)
Definition validation_errors (data : ErrorData) : FieldErrorMap :=
  match data_errors data with
  | Some entries => foldl map_entry ∅ entries
  | None =>
    match data_error data with
    | Some e => if truthy e then {["general" := e]}
                else {["general" := "Failed to update account settings."]}
    | None => {["general" := "Failed to update account settings."]}
    end
  end.

(** The [finally] block. *)
Definition finally (c : Ctrl) : Ctrl := resetPasswordFields (setIsSubmitting false c).

(** The states of the specification, read off the flags. *)
Inductive Phase : Type := Loading | Ready | Submitting | LoadError.

Definition phase (c : Ctrl) : Phase :=
  if isSubmitting c then Submitting
  else if isLoading c then Loading
  else match currentUser c with
       | Some _ => Ready
       | None => if truthy (loadError c) then LoadError else Loading
       end.

Section Controller.

(** [String.prototype.trim] and [String.prototype.toLowerCase] are host
    functions; the component is embedded for any pair of them. *)
Variable trim : string → string.
Variable toLowerCase : string → string.

(** The other code of the process, as the bodies of the listeners it has
    registered, and the identity of this component's callback. *)
Variable behav : Behaviour.
Variable self : Listener.

(** The component's callback runs at every call of [self] by the cache. *)
Definition deliver (events : list Event) (c : Ctrl) : Ctrl :=
  foldl (λ c e,
           match e with
           | EvCall l v => if decide (l = self) then onUserChange v c else c
           | _ => c
           end) c events.

Definition trimmedAvatar (f : FormState) : string := trim (avatar f).

Definition hasProfileChanges (c : Ctrl) : bool :=
  match currentUser c with
  | None => false
  | Some cu =>
    bool_decide (trim (username (formState c)) ≠ Types.username cu)
    || bool_decide (toLowerCase (trim (email (formState c))) ≠ toLowerCase (Types.email cu))
    || bool_decide (or_else (trimmedAvatar (formState c)) "" ≠ nullish (Types.avatar cu) "")
  end.

(** Lines 137 to 156: the payload built for the user [cu]. *)
Definition build_payload (c : Ctrl) (cu : User) : UpdateCurrentUserRequest :=
  let f := formState c in
  let profile := hasProfileChanges c in
  {| payload_username :=
       if profile && truthy (trim (username f)) && bool_decide (trim (username f) ≠ Types.username cu)
       then Some (trim (username f)) else None;
     payload_email :=
       if profile && truthy (trim (email f))
          && bool_decide (toLowerCase (trim (email f)) ≠ toLowerCase (Types.email cu))
       then Some (trim (email f)) else None;
     payload_avatar :=
       if profile && bool_decide (or_else (trimmedAvatar f) "" ≠ nullish (Types.avatar cu) "")
       then Some (if bool_decide (0 < String.length (trimmedAvatar f)) then Some (trimmedAvatar f) else None)
       else None;
     payload_password := if hasPasswordChanges f then Some (password f) else None;
     payload_password_confirmation :=
       if hasPasswordChanges f then Some (passwordConfirmation f) else None |}.

(** [handleSubmit] up to its [await]: either it returns, or it has sent
    the payload and waits. *)
Inductive Submitted : Type :=
| Returned (w : World)
| Awaiting (payload : UpdateCurrentUserRequest) (w : World).

Definition handleSubmit (w : World) : Submitted :=
  let c := setSuccessMessage "" (setFieldErrors ∅ (ctrl w)) in
  match currentUser c with
  | None =>
    Returned (with_ctrl
      (setFieldErrors {["general" := "Unable to update profile until your account loads."]} c) w)
  | Some cu =>
    if hasPasswordChanges (formState c)
       && bool_decide (password (formState c) ≠ passwordConfirmation (formState c))
    then Returned (with_ctrl
           (setFieldErrors {["passwordConfirmation" := "Passwords do not match."]} c) w)
    else
      let payload := build_payload c cu in
      if bool_decide (keys_length payload = 0)
      then Returned (with_ctrl
             (setSuccessMessage "Nothing to update — your settings are already current." c) w)
      else Awaiting payload
             (mkWorld (setIsSubmitting true c) (cache w) (navigated w)
                      (requests w ++ [UpdateCurrentUser payload]))
  end.

(** [handleSubmit] after [authAPI.updateCurrentUser] resolved. *)
Definition handleSubmit_resolved (fuel : nat) (updatedUser : User) (w : World) : option World :=
  match UserCache.setCurrentUser behav fuel (Some updatedUser) (cache w) with
  | None => None
  | Some s' =>
    let c := deliver (events_since (cache w) s') (ctrl w) in
    let c := setFormState (λ previous,
               mkForm (Types.username updatedUser) (Types.email updatedUser)
                      (nullish (Types.avatar updatedUser) "") "" "") c in
    let c := setSuccessMessage "Profile updated successfully." c in
    Some (mkWorld (finally c) s' (navigated w) (requests w))
  end.

(** [handleSubmit] after [authAPI.updateCurrentUser] rejected: the world
    it leaves.  With a body that is [null], [data.errors] throws inside
    the [catch]: [setFieldErrors] is not reached and only the [finally]
    block runs. *)
Definition handleSubmit_rejected (fuel : nat) (error : Failure) (w : World) : option World :=
  match error with
  | AxiosResponse status data =>
    if bool_decide (status = 401%Z)
    then
      match UserCache.clear behav fuel (cache w) with
      | None => None
      | Some s' =>
        let c := deliver (events_since (cache w) s') (ctrl w) in
        Some (mkWorld (finally c) s' (navigated w ++ ["/login"]) (requests w))
      end
    else
      match data with
      | Some data =>
        Some (with_ctrl (finally (setFieldErrors (validation_errors data) (ctrl w))) w)
      | None => Some (with_ctrl (finally (ctrl w)) w)
      end
  | OtherFailure =>
    Some (with_ctrl
      (finally (setFieldErrors
         {["general" := "An unexpected error occurred while saving your settings."]} (ctrl w))) w)
  end.

(** Does that continuation end with the [TypeError] of [data.errors]
    leaving [handleSubmit]?  (Status 401 returns before the body is
    read.) *)
Definition handleSubmit_rejected_throws (error : Failure) : bool :=
  match error with
  | AxiosResponse status None => negb (bool_decide (status = 401%Z))
  | _ => false
  end.

(** "Identical under the change-set equality rules", in the words of the
    specification: both the form's value and the user's are trimmed, the
    emails are lower-cased as well, an absent avatar counts as the empty
    string. *)
Definition same_under_rules (f : FormState) (cu : User) : Prop :=
  trim (username f) = trim (Types.username cu) ∧
  toLowerCase (trim (email f)) = toLowerCase (trim (Types.email cu)) ∧
  trim (avatar f) = trim (nullish (Types.avatar cu) "").

(** The effect of lines 34 to 79: subscribe, then fetch unless the form
    has been seeded. *)
Definition effect (fuel : nat) (w : World) : option World :=
  let c := setIsMounted true (ctrl w) in
  match UserCache.subscribe behav fuel self (cache w) with
  | None => None
  | Some s' =>
    let c := deliver (events_since (cache w) s') c in
    if negb (hasInitializedRef c)
    then Some (mkWorld (setLoadError "" (setIsLoading true c)) s' (navigated w)
                       (requests w ++ [GetCurrentUser]))
    else Some (mkWorld c s' (navigated w) (requests w))
  end.

(** [fetchUser] after [authAPI.getCurrentUser] resolved. *)
Definition fetchUser_resolved (fuel : nat) (user : User) (w : World) : option World :=
  if isMounted (ctrl w)
  then
    match UserCache.setCurrentUser behav fuel (Some user) (cache w) with
    | None => None
    | Some s' =>
      Some (mkWorld (deliver (events_since (cache w) s') (ctrl w)) s' (navigated w) (requests w))
    end
  else Some w.

(** [fetchUser] after [authAPI.getCurrentUser] rejected: the [catch] does
    not look at the error. *)
Definition fetchUser_rejected (error : Failure) (w : World) : World :=
  if negb (isMounted (ctrl w)) then w
  else with_ctrl (setIsLoading false (setLoadError "Failed to load account details." (ctrl w))) w.

(** The cleanup of the effect. *)
Definition cleanup (fuel : nat) (w : World) : option World :=
  match UserCache.unsubscribe behav fuel self (cache w) with
  | None => None
  | Some s' => Some (mkWorld (setIsMounted false (ctrl w)) s' (navigated w) (requests w))
  end.

End Controller.

End AccountSettings.

(** ** Concrete situations used to evaluate the definitions *)

Module Scenarios.

Import UserCache.

#[local] Open Scope string_scope.
#[local] Open Scope nat_scope.

Definition alice : User := Types.mkUser 1 "alice" "alice@example.com" None.
Definition alice_renamed : User := Types.mkUser 1 "alicia" "alice@example.com" None.
Definition bob : User := Types.mkUser 2 "bob" "bob@example.com" (Some "https://example.com/bob.png").

(** A user whose stored username ends in a blank. *)
Definition carol : User := Types.mkUser 3 "carol " "carol@example.com" None.

(** Listeners 0 and 1 have subscribed, nobody is logged in. *)
Definition two_listeners : Store :=
  {| cachedUser := None; listeners := [Some 0; Some 1];
     trace := [EvCall 0 None; EvCall 1 None] |}.

(** Listener 0 answers the arrival of [alice] by storing [alice_renamed];
    every other call does nothing. *)
Definition reacting : Behaviour := λ l _ v,
  match l, v with
  | 0, Some u => if bool_decide (Types.username u = "alice") then [ASetCurrentUser (Some alice_renamed)] else []
  | _, _ => []
  end.

(** Listener 0 unsubscribes itself as soon as it is told of a user. *)
Definition leaving : Behaviour := λ l _ v,
  match l, v with
  | 0, Some _ => [AUnsubscribe 0]
  | _, _ => []
  end.

(** [trim] and [toLowerCase] on strings of ASCII characters. *)
Definition is_space (a : Ascii.ascii) : bool :=
  let n := Ascii.nat_of_ascii a in
  bool_decide (9 ≤ n ≤ 13)%nat || bool_decide (n = 32)%nat.

Fixpoint trim_start (s : string) : string :=
  match s with
  | EmptyString => EmptyString
  | String a r => if is_space a then trim_start r else s
  end.

Definition trim_ascii (s : string) : string :=
  String.rev (trim_start (String.rev (trim_start s))).

Definition lower_char (a : Ascii.ascii) : Ascii.ascii :=
  let n := Ascii.nat_of_ascii a in
  if bool_decide (65 ≤ n ≤ 90)%nat then Ascii.ascii_of_nat (n + 32) else a.

Fixpoint lower_ascii (s : string) : string :=
  match s with
  | EmptyString => EmptyString
  | String a r => String (lower_char a) (lower_ascii r)
  end.

(** A component, mounted over an empty cache, whose initial fetch has
    returned [alice] and whose form now holds [form]; its callback is
    listener 0 and nobody else listens. *)
Definition mounted (form : AccountSettings.FormState) : AccountSettings.World :=
  let s := {| cachedUser := Some alice; listeners := [Some 0];
              trace := [EvCall 0 None; EvNotifyBegin; EvCall 0 (Some alice); EvNotifyEnd] |} in
  AccountSettings.mkWorld
    (AccountSettings.mkCtrl (Some alice) form false false ∅ "" "" true true)
    s [] [AccountSettings.GetCurrentUser].

(** A component, mounted over an empty cache, whose initial fetch has just
    returned [u]: the form is the one seeded from [u], untouched. *)
Definition seeded (u : User) : AccountSettings.World :=
  let s := {| cachedUser := Some u; listeners := [Some 0];
              trace := [EvCall 0 None; EvNotifyBegin; EvCall 0 (Some u); EvNotifyEnd] |} in
  AccountSettings.mkWorld
    (AccountSettings.mkCtrl (Some u) (AccountSettings.defaultFormState (Some u))
       false false ∅ "" "" true true)
    s [] [AccountSettings.GetCurrentUser].

(** The world in which [handleSubmit] leaves or suspends the component. *)
Definition submitted (w : AccountSettings.World) : AccountSettings.World :=
  match AccountSettings.handleSubmit trim_ascii lower_ascii w with
  | AccountSettings.Returned w' => w'
  | AccountSettings.Awaiting _ w' => w'
  end.

(** Forms typed over [alice]: a new username with a new password, the
    same data up to blanks and letter case, and two passwords that
    differ. *)
Definition renaming : AccountSettings.FormState :=
  AccountSettings.mkForm "alicia" "alice@example.com" "" "pw" "pw".

Definition untouched : AccountSettings.FormState :=
  AccountSettings.mkForm " alice " "Alice@Example.com " " " "" "".

Definition mistyped : AccountSettings.FormState :=
  AccountSettings.mkForm "alice" "alice@example.com" "" "secret1" "secret2".

(** The component of [mounted untouched] after the cleanup of its
    effect. *)
Definition unmounted : AccountSettings.World :=
  let s := {| cachedUser := Some alice; listeners := [None];
              trace := [EvCall 0 None; EvNotifyBegin; EvCall 0 (Some alice); EvNotifyEnd;
                        EvUnsub 0] |} in
  AccountSettings.mkWorld
    (AccountSettings.mkCtrl (Some alice) untouched false false ∅ "" "" true false)
    s [] [AccountSettings.GetCurrentUser].

(** A component mounted over an empty cache, waiting for its initial
    fetch. *)
Definition loading : AccountSettings.World :=
  let s := {| cachedUser := None; listeners := [Some 0]; trace := [EvCall 0 None] |} in
  AccountSettings.mkWorld
    (AccountSettings.mkCtrl None (AccountSettings.defaultFormState None) true false ∅ "" "" false true)
    s [] [AccountSettings.GetCurrentUser].

End Scenarios.

(** * Properties of the cache *)

Module CacheProofs.

Import UserCache Scenarios.

Section Facts.

Variable behav : Behaviour.

(** More fuel never changes a result. *)
Lemma run_mono fuel fuel' t s s' :
  run behav fuel t s = Some s' → fuel ≤ fuel' → run behav fuel' t s = Some s'.
Proof.
  revert fuel' t s s'. induction fuel as [|fuel IH]; intros fuel' t s s' Hrun Hle; [done|].
  destruct fuel' as [|fuel']; [lia|].
  assert (Hle' : fuel ≤ fuel') by lia.
  simpl in Hrun |- *.
  destruct t as [[u| |l|l]| |i|l|[|a acts]]; eauto.
  - destruct (run behav fuel (TForEach 0) _) as [s1|] eqn:E; [|done].
    by rewrite (IH _ _ _ _ E Hle').
  - destruct (listeners s !! i) as [[l|]|]; eauto.
    destruct (run behav fuel (TCall l) s) as [s1|] eqn:E; [|done].
    rewrite (IH _ _ _ _ E Hle'). eauto.
  - destruct (run behav fuel (TAct a) s) as [s1|] eqn:E; [|done].
    rewrite (IH _ _ _ _ E Hle'). eauto.
Qed.

(** The log only grows. *)
Lemma run_trace fuel t s s' :
  run behav fuel t s = Some s' → trace s' = trace s ++ events_since s s'.
Proof.
  assert (G : ∀ s s', (∃ tr, trace s' = trace s ++ tr) → trace s' = trace s ++ events_since s s').
  { intros s0 s1 [tr E]. unfold events_since. by rewrite E, drop_app_length. }
  intros Hrun. apply G. clear G.
  revert t s s' Hrun. induction fuel as [|fuel IH]; intros t s s' Hrun; [done|].
  simpl in Hrun.
  destruct t as [[u| |l|l]| |i|l|[|a acts]].
  - apply IH in Hrun. done.
  - apply IH in Hrun. done.
  - apply IH in Hrun. done.
  - inversion Hrun; subst. simpl. eauto.
  - destruct (run behav fuel (TForEach 0) _) as [s1|] eqn:E; [|done].
    inversion Hrun; subst. apply IH in E as [tr E]. simpl in *.
    rewrite E. exists ([EvNotifyBegin] ++ tr ++ [EvNotifyEnd]). by rewrite <- !app_assoc.
  - destruct (listeners s !! i) as [[l|]|]; [| by apply IH in Hrun |].
    + destruct (run behav fuel (TCall l) s) as [s1|] eqn:E; [|done].
      apply IH in E as [tr1 E]. apply IH in Hrun as [tr2 Hrun].
      exists (tr1 ++ tr2). by rewrite Hrun, E, <- app_assoc.
    + inversion Hrun; subst. exists []. by rewrite app_nil_r.
  - apply IH in Hrun as [tr Hrun]. simpl in Hrun.
    exists ([EvCall l (cachedUser s)] ++ tr). by rewrite Hrun, <- app_assoc.
  - inversion Hrun; subst. exists []. by rewrite app_nil_r.
  - destruct (run behav fuel (TAct a) s) as [s1|] eqn:E; [|done].
    apply IH in E as [tr1 E]. apply IH in Hrun as [tr2 Hrun].
    exists (tr1 ++ tr2). by rewrite Hrun, E, <- app_assoc.
Qed.

Lemma events_since_eq s s' tr : trace s' = trace s ++ tr → events_since s s' = tr.
Proof. intros H. unfold events_since. by rewrite H, drop_app_length. Qed.

Lemma events_since_refl s : events_since s s = [].
Proof. unfold events_since. apply drop_all. Qed.

Lemma events_since_trans s1 s2 s3 :
  trace s2 = trace s1 ++ events_since s1 s2 →
  trace s3 = trace s2 ++ events_since s2 s3 →
  events_since s1 s3 = events_since s1 s2 ++ events_since s2 s3.
Proof.
  intros H12 H23. unfold events_since at 1.
  by rewrite H23, H12, <- app_assoc, drop_app_length.
Qed.

Lemma events_since_log e s s' :
  trace s' = trace (log e s) ++ events_since (log e s) s' →
  events_since s s' = e :: events_since (log e s) s'.
Proof.
  intros H. unfold events_since at 1. rewrite H. simpl.
  by rewrite <- app_assoc, drop_app_length.
Qed.

(** *** The listener set *)

Lemma elem_of_set_add l l' es : Some l' ∈ set_add l es ↔ l' = l ∨ Some l' ∈ es.
Proof.
  unfold set_add. case_decide as H.
  - split; [by right|]. intros [->|?]; done.
  - rewrite elem_of_app, list_elem_of_singleton. split.
    + intros [?|E]; [by right|]. left. congruence.
    + intros [->|?]; [by right|by left].
Qed.

Lemma elem_of_live l es : l ∈ live es ↔ Some l ∈ es.
Proof.
  unfold live. rewrite list_elem_of_omap. split.
  - intros (x & Hx & ->). done.
  - intros H. by exists (Some l).
Qed.

Lemma live_set_add l es : NoDup (live es) → NoDup (live (set_add l es)).
Proof.
  intros H. unfold set_add. case_decide as Hin; [done|].
  unfold live. rewrite omap_app. simpl. apply NoDup_app. split; [done|]. split.
  - intros x Hx Hx'. apply list_elem_of_singleton in Hx' as ->.
    by apply Hin, elem_of_live.
  - apply NoDup_singleton.
Qed.

Lemma elem_of_set_delete l l' es : Some l' ∈ set_delete l es → Some l' ∈ es.
Proof.
  induction es as [|e r IH]; simpl; [done|].
  case_decide as E.
  - rewrite !elem_of_cons. intros [?|?]; [done|by right].
  - rewrite !elem_of_cons. intros [?|?]; [by left|right; auto].
Qed.

Lemma live_set_delete l es : NoDup (live es) → NoDup (live (set_delete l es)).
Proof.
  induction es as [|e r IH]; simpl; [done|].
  case_decide as E.
  - subst e. simpl. by intros ?%NoDup_cons_1_2.
  - destruct e as [l'|]; simpl; [|done].
    rewrite !NoDup_cons. intros [Hn Hd]. split; [|auto].
    rewrite elem_of_live in *. intros ?%elem_of_set_delete. done.
Qed.

Lemma set_delete_gone l es : NoDup (live es) → Some l ∉ set_delete l es.
Proof.
  induction es as [|e r IH]; simpl; [intros _; apply not_elem_of_nil|].
  case_decide as E.
  - subst e. simpl. rewrite NoDup_cons, elem_of_live. intros [Hn _].
    rewrite elem_of_cons. intros [?|?]; done.
  - intros Hd. rewrite elem_of_cons. intros [?|Hin]; [done|].
    revert Hin. apply IH. destruct e; simpl in Hd; [by apply NoDup_cons_1_2 in Hd|done].
Qed.

Lemma set_delete_absent l es : Some l ∉ es → set_delete l es = es.
Proof.
  induction es as [|e r IH]; simpl; [done|].
  rewrite not_elem_of_cons. intros [Hne Hr]. case_decide; [done|]. by rewrite IH.
Qed.

(** Well-formedness holds at start and is an invariant of every piece of
    code. *)
Lemma initial_wf : wf initial.
Proof. apply NoDup_nil_2. Qed.

Lemma run_wf fuel t s s' : run behav fuel t s = Some s' → wf s → wf s'.
Proof.
  revert t s s'. induction fuel as [|fuel IH]; intros t s s' Hrun Hwf; [done|].
  simpl in Hrun.
  destruct t as [[u| |l|l]| |i|l|[|a acts]].
  - by apply IH in Hrun.
  - by apply IH in Hrun.
  - apply IH in Hrun; [done|]. by apply live_set_add.
  - inversion Hrun; subst. by apply live_set_delete.
  - destruct (run behav fuel (TForEach 0) _) as [s1|] eqn:E; [|done].
    inversion Hrun; subst. by apply IH in E.
  - destruct (listeners s !! i) as [[l|]|]; [|by apply IH in Hrun|by inversion Hrun; subst].
    destruct (run behav fuel (TCall l) s) as [s1|] eqn:E; [|done].
    apply IH in E; [|done]. by apply IH in Hrun.
  - by apply IH in Hrun.
  - by inversion Hrun; subst.
  - destruct (run behav fuel (TAct a) s) as [s1|] eqn:E; [|done].
    apply IH in E; [|done]. by apply IH in Hrun.
Qed.

(** *** Calls of one listener *)

Lemma calls_of_app l tr1 tr2 : calls_of l (tr1 ++ tr2) = calls_of l tr1 ++ calls_of l tr2.
Proof.
  induction tr1 as [|e r IH]; simpl; [done|].
  destruct e; try done. case_decide; [by rewrite IH|done].
Qed.

Lemma calls_of_nil l tr : calls_of l tr = [] ↔ ∀ v, EvCall l v ∉ tr.
Proof.
  induction tr as [|e r IH]; simpl.
  - split; [intros _ v; apply not_elem_of_nil|done].
  - assert (G : ∀ e' : Event, (∀ v, e' ≠ EvCall l v) →
               (∀ v, EvCall l v ∉ r) ↔ (∀ v, EvCall l v ∉ e' :: r)).
    { intros e' He. split; intros H v; specialize (H v).
      - apply not_elem_of_cons. split; [by apply not_eq_sym|done].
      - by apply not_elem_of_cons in H as [_ H]. }
    destruct e as [| |l' v'|l']; [rewrite IH; by apply G ..| |rewrite IH; by apply G].
    case_decide as E.
    + subst l'. split; [done|]. intros H. exfalso. apply (H v'). by left.
    + rewrite IH. apply G. congruence.
Qed.

(** A listener that is not registered and that nobody subscribes stays
    unregistered and is not called. *)
Lemma unregistered_stays fuel l t s s' :
  never_subscribes behav l → apart_from l t → Some l ∉ listeners s →
  run behav fuel t s = Some s' →
  (Some l ∉ listeners s') ∧ calls_of l (events_since s s') = [].
Proof.
  intros Hb. revert t s s'.
  induction fuel as [|fuel IH]; intros t s s' Ht Hout Hrun; [done|].
  pose proof (run_trace _ _ _ _ Hrun) as Htr.
  simpl in Hrun.
  destruct t as [[u| |l'|l']| |i|l'|[|a acts]].
  - apply (IH TNotify) in Hrun; done.
  - apply (IH TNotify) in Hrun; done.
  - apply (IH (TCall l')) in Hrun; [done|done|].
    simpl in *. rewrite elem_of_set_add. intros [?|?]; [congruence|done].
  - inversion Hrun; subst. split.
    + simpl. intros ?%elem_of_set_delete. done.
    + unfold events_since. simpl. by rewrite drop_app_length.
  - destruct (run behav fuel (TForEach 0) _) as [s1|] eqn:E; [|done].
    inversion Hrun; subst.
    pose proof (run_trace _ _ _ _ E) as E1.
    apply (IH (TForEach 0)) in E as [? E]; [|done|done]. split; [done|].
    unfold events_since. simpl. rewrite E1. simpl.
    rewrite <- !app_assoc, drop_app_length. simpl.
    rewrite calls_of_app, E. done.
  - destruct (listeners s !! i) as [[l0|]|] eqn:Hi.
    + destruct (run behav fuel (TCall l0) s) as [s1|] eqn:E; [|done].
      assert (l0 ≠ l) by (intros ->; apply Hout; by eapply list_elem_of_lookup_2).
      pose proof (run_trace _ _ _ _ E) as E1.
      pose proof (run_trace _ _ _ _ Hrun) as E2.
      apply (IH (TCall l0)) in E as [? E]; [|done|done].
      apply (IH (TForEach (S i))) in Hrun as [? Hrun]; [|done|done].
      split; [done|]. rewrite (events_since_trans s s1 s'), calls_of_app, E, Hrun; done.
    + apply (IH (TForEach (S i))) in Hrun; done.
    + inversion Hrun; subst. by rewrite events_since_refl.
  - pose proof (run_trace _ _ _ _ Hrun) as E1.
    apply (IH (TBody _)) in Hrun as [? Hrun]; [|apply Hb|done]. split; [done|].
    rewrite (events_since_log _ _ _ E1). simpl. by rewrite decide_False.
  - inversion Hrun; subst. by rewrite events_since_refl.
  - destruct (run behav fuel (TAct a) s) as [s1|] eqn:E; [|done].
    simpl in Ht. apply not_elem_of_cons in Ht as [Ha Hacts].
    pose proof (run_trace _ _ _ _ E) as E1.
    pose proof (run_trace _ _ _ _ Hrun) as E2.
    apply (IH (TAct a)) in E as [? E]; [| |done].
    2:{ destruct a; simpl; try done. congruence. }
    apply (IH (TBody acts)) in Hrun as [? Hrun]; [|done|done].
    split; [done|]. rewrite (events_since_trans s s1 s'), calls_of_app, E, Hrun; done.
Qed.

Lemma quiet_after_unsub_app l tr1 tr2 :
  quiet_after_unsub l tr1 → quiet_after_unsub l tr2 →
  (EvUnsub l ∈ tr1 → calls_of l tr2 = []) →
  quiet_after_unsub l (tr1 ++ tr2).
Proof.
  intros H1 H2 H12. induction tr1 as [|e r IH]; [done|].
  intros [|e' a] b E; simpl in E; inversion E; subst.
  - rewrite calls_of_app, (H1 [] r eq_refl), H12; [done|by left].
  - apply (IH (λ a0 b0 E0, H1 (e' :: a0) b0 (f_equal (cons e') E0))
              (λ Hin, H12 (list_elem_of_further _ _ _ Hin)) a b). done.
Qed.

Lemma quiet_after_unsub_cons l e tr :
  e ≠ EvUnsub l → quiet_after_unsub l tr → quiet_after_unsub l (e :: tr).
Proof.
  intros He H [|e' a] b E; simpl in E; inversion E; subst; [done|].
  by apply (H a b).
Qed.

Lemma quiet_after_unsub_snoc l e tr :
  (∀ v, e ≠ EvCall l v) → quiet_after_unsub l tr → quiet_after_unsub l (tr ++ [e]).
Proof.
  intros He H. apply quiet_after_unsub_app; [done| |].
  - intros [|e' [|? ?]] b E; simpl in E; inversion E; subst; done.
  - intros _. apply calls_of_nil. intros v Hin.
    apply list_elem_of_singleton in Hin. by apply (He v).
Qed.

(** After the closure for [l] has run, [l] is called no more, wherever
    the closure was called from. *)
Lemma unsub_respected fuel l t s s' :
  never_subscribes behav l → apart_from l t → wf s →
  run behav fuel t s = Some s' →
  quiet_after_unsub l (events_since s s') ∧
  (EvUnsub l ∈ events_since s s' → Some l ∉ listeners s').
Proof.
  intros Hb. revert t s s'.
  induction fuel as [|fuel IH]; intros t s s' Ht Hwf Hrun; [done|].
  simpl in Hrun.
  destruct t as [[u| |l'|l']| |i|l'|[|a acts]].
  - apply (IH TNotify) in Hrun; done.
  - apply (IH TNotify) in Hrun; done.
  - apply (IH (TCall l')) in Hrun; [done|done|]. by apply live_set_add.
  - inversion Hrun; subst.
    unfold events_since. simpl. rewrite drop_app_length. split.
    + intros [|e' [|? ?]] b E; simpl in E; inversion E; subst; done.
    + intros Hin. apply list_elem_of_singleton in Hin. inversion Hin; subst.
      by apply set_delete_gone.
  - destruct (run behav fuel (TForEach 0) _) as [s1|] eqn:E; [|done].
    inversion Hrun; subst.
    pose proof (run_trace _ _ _ _ E) as E1.
    apply (IH (TForEach 0)) in E as [HP HU]; [|done|done].
    assert (Hev : events_since s (log EvNotifyEnd s1)
                  = EvNotifyBegin :: events_since (log EvNotifyBegin s) s1 ++ [EvNotifyEnd]).
    { unfold events_since at 1. simpl. rewrite E1. simpl.
      by rewrite <- !app_assoc, drop_app_length. }
    rewrite Hev. split.
    + apply quiet_after_unsub_cons; [done|]. by apply quiet_after_unsub_snoc.
    + rewrite elem_of_cons, elem_of_app, list_elem_of_singleton.
      intros [?|[?|?]]; [done|by apply HU|done].
  - destruct (listeners s !! i) as [[l0|]|] eqn:Hi.
    + destruct (run behav fuel (TCall l0) s) as [s1|] eqn:E; [|done].
      pose proof (run_trace _ _ _ _ E) as E1.
      pose proof (run_trace _ _ _ _ Hrun) as E2.
      pose proof (run_wf _ _ _ _ E Hwf) as Hwf1.
      assert (Hst : Some l ∉ listeners s1 →
                    (Some l ∉ listeners s') ∧ calls_of l (events_since s1 s') = []).
      { intros Hout. by eapply (unregistered_stays fuel l (TForEach (S i))). }
      apply (IH (TForEach (S i))) in Hrun as [HP2 HU2]; [|done|done].
      assert (HC : quiet_after_unsub l (events_since s s1) ∧
                   (EvUnsub l ∈ events_since s s1 → Some l ∉ listeners s1)).
      { destruct (decide (l0 = l)) as [->|Hne]; [|by apply (IH (TCall l0))].
        (* the direct call of [l] itself: what its body does is apart from [l] *)
        destruct fuel as [|fuel']; [done|]. simpl in E.
        pose proof (run_trace _ _ _ _ E) as E0.
        rewrite (events_since_log _ _ _ E0).
        apply (run_mono _ (S fuel')) in E; [|lia].
        apply (IH (TBody _)) in E as [HP1 HU1]; [|apply Hb|done]. split.
        - by apply quiet_after_unsub_cons.
        - rewrite elem_of_cons. intros [?|Hin]; [done|by apply HU1]. }
      destruct HC as [HP1 HU1].
      rewrite (events_since_trans s s1 s') by done. split.
      * apply quiet_after_unsub_app; [done|done|]. intros Hin. by apply Hst, HU1.
      * rewrite elem_of_app. intros [Hin|Hin]; [|by apply HU2]. by apply Hst, HU1.
    + apply (IH (TForEach (S i))) in Hrun; done.
    + inversion Hrun; subst. rewrite events_since_refl. split.
      * by intros [|? ?] b E.
      * by intros ?%not_elem_of_nil.
  - pose proof (run_trace _ _ _ _ Hrun) as E1.
    apply (IH (TBody _)) in Hrun as [HP HU]; [|apply Hb|done].
    rewrite (events_since_log _ _ _ E1). split.
    + by apply quiet_after_unsub_cons.
    + rewrite elem_of_cons. intros [?|?]; [done|by apply HU].
  - inversion Hrun; subst. rewrite events_since_refl. split.
    + by intros [|? ?] b E.
    + by intros ?%not_elem_of_nil.
  - destruct (run behav fuel (TAct a) s) as [s1|] eqn:E; [|done].
    simpl in Ht. apply not_elem_of_cons in Ht as [Ha Hacts].
    pose proof (run_trace _ _ _ _ E) as E1.
    pose proof (run_trace _ _ _ _ Hrun) as E2.
    pose proof (run_wf _ _ _ _ E Hwf) as Hwf1.
    assert (Hst : Some l ∉ listeners s1 →
                  (Some l ∉ listeners s') ∧ calls_of l (events_since s1 s') = []).
    { intros Hout. by eapply (unregistered_stays fuel l (TBody acts)). }
    apply (IH (TAct a)) in E as [HP1 HU1]; [| |done].
    2:{ destruct a; simpl; try done. congruence. }
    apply (IH (TBody acts)) in Hrun as [HP2 HU2]; [|done|done].
    rewrite (events_since_trans s s1 s') by done. split.
    + apply quiet_after_unsub_app; [done|done|]. intros Hin. by apply Hst, HU1.
    + rewrite elem_of_app. intros [Hin|Hin]; [|by apply HU2]. by apply Hst, HU1.
Qed.

(** *** Listeners that do not call back *)

Lemma run_forEach fuel i s :
  run behav (S fuel) (TForEach i) s =
  match listeners s !! i with
  | None => Some s
  | Some None => run behav fuel (TForEach (S i)) s
  | Some (Some l) =>
    match run behav fuel (TCall l) s with
    | Some s' => run behav fuel (TForEach (S i)) s'
    | None => None
    end
  end.
Proof. reflexivity. Qed.

Lemma run_call fuel l s :
  run behav (S fuel) (TCall l) s =
  run behav fuel (TBody (behav l (trace s) (cachedUser s))) (log (EvCall l (cachedUser s)) s).
Proof. reflexivity. Qed.

Lemma run_body_cons fuel a acts s :
  run behav (S fuel) (TBody (a :: acts)) s =
  match run behav fuel (TAct a) s with
  | Some s' => run behav fuel (TBody acts) s'
  | None => None
  end.
Proof. reflexivity. Qed.

Lemma passive_call l s fuel :
  passive behav → 2 ≤ fuel →
  run behav fuel (TCall l) s = Some (log (EvCall l (cachedUser s)) s).
Proof.
  intros Hp Hfuel. destruct fuel as [|[|fuel]]; [lia|lia|]. simpl. by rewrite Hp.
Qed.

Lemma passive_forEach :
  passive behav → ∀ n i s fuel,
  length (listeners s) ≤ i + n → n + 2 ≤ fuel →
  run behav fuel (TForEach i) s =
  Some {| cachedUser := cachedUser s; listeners := listeners s;
          trace := trace s ++ map (λ l, EvCall l (cachedUser s)) (live (drop i (listeners s))) |}.
Proof.
  intros Hp. induction n as [|n IH]; intros i s fuel Hlen Hfuel.
  - destruct fuel as [|fuel]; [lia|]. rewrite run_forEach.
    rewrite (lookup_ge_None_2 (listeners s) i), drop_ge by lia.
    simpl. rewrite app_nil_r. by destruct s.
  - destruct fuel as [|fuel]; [lia|]. rewrite run_forEach.
    destruct (listeners s !! i) as [[l|]|] eqn:Hi.
    + rewrite passive_call by (done || lia).
      rewrite (IH (S i)); simpl; [|lia|lia].
      rewrite (drop_S _ _ _ Hi). simpl. by rewrite <- app_assoc.
    + rewrite (IH (S i) s fuel); [|lia|lia].
      by rewrite (drop_S _ _ _ Hi).
    + apply lookup_ge_None_1 in Hi. rewrite drop_ge by lia.
      simpl. rewrite app_nil_r. by destruct s.
Qed.

(** With passive listeners a mutation returns, having stored the value
    and called every live listener once with it. *)
Lemma passive_mutation a user s fuel :
  passive behav → mutation a = Some user → length (listeners s) + 4 ≤ fuel →
  run behav fuel (TAct a) s =
  Some {| cachedUser := user; listeners := listeners s;
          trace := trace s ++ fanout user (listeners s) |}.
Proof.
  intros Hp Ha Hfuel.
  destruct fuel as [|[|fuel]]; [lia|lia|].
  assert (G : run behav (S fuel) TNotify (assign user s) =
              Some {| cachedUser := user; listeners := listeners s;
                      trace := trace s ++ fanout user (listeners s) |}).
  { simpl. rewrite (passive_forEach Hp (length (listeners s)) 0); simpl; [|lia|lia].
    unfold log, fanout. simpl. by rewrite <- !app_assoc. }
  destruct a; simpl in Ha; inversion Ha; subst; exact G.
Qed.

(** *** The first call of a new subscriber *)

Lemma before_first_notify_app l tr1 tr2 :
  calls_of l (before_first_notify tr1) = [] →
  calls_of l (before_first_notify tr2) = [] →
  calls_of l (before_first_notify (tr1 ++ tr2)) = [].
Proof.
  intros H1 H2. induction tr1 as [|e r IH]; [done|].
  destruct e; simpl in *; auto. case_decide; [done|auto].
Qed.

(** Code that is not a direct call of [l] calls [l] only from within a
    run of [notify]. *)
Lemma called_by_notify_only fuel l t s s' :
  never_subscribes behav l → outside_fanout l t →
  run behav fuel t s = Some s' →
  calls_of l (before_first_notify (events_since s s')) = [].
Proof.
  intros Hb. revert t s s'.
  induction fuel as [|fuel IH]; intros t s s' Ht Hrun; [done|].
  pose proof (run_trace _ _ _ _ Hrun) as Htr.
  simpl in Hrun.
  destruct t as [[u| |l'|l']| |i|l'|[|a acts]]; [| | | | |done| | |].
  - by apply (IH TNotify) in Hrun.
  - by apply (IH TNotify) in Hrun.
  - by apply (IH (TCall l')) in Hrun.
  - inversion Hrun; subst. unfold events_since. simpl. by rewrite drop_app_length.
  - destruct (run behav fuel (TForEach 0) _) as [s1|] eqn:E; [|done].
    inversion Hrun; subst.
    apply run_trace in E. unfold events_since. simpl. rewrite E. simpl.
    by rewrite <- !app_assoc, drop_app_length.
  - pose proof (run_trace _ _ _ _ Hrun) as E1.
    apply (IH (TBody _)) in Hrun; [|apply Hb].
    rewrite (events_since_log _ _ _ E1). simpl. by rewrite decide_False.
  - inversion Hrun; subst. by rewrite events_since_refl.
  - destruct (run behav fuel (TAct a) s) as [s1|] eqn:E; [|done].
    simpl in Ht. apply not_elem_of_cons in Ht as [Ha Hacts].
    pose proof (run_trace _ _ _ _ E) as E1.
    pose proof (run_trace _ _ _ _ Hrun) as E2.
    apply (IH (TAct a)) in E.
    2:{ destruct a; simpl; try done. congruence. }
    apply (IH (TBody acts)) in Hrun; [|done].
    rewrite (events_since_trans s s1 s') by done.
    by apply before_first_notify_app.
Qed.

End Facts.

(** *** The situations are reached by the program *)

Example two_listeners_reached b :
  b = silent ∨ b = reacting ∨ b = leaving →
  (subscribe b 3 0 initial ≫= subscribe b 3 1) = Some two_listeners.
Proof. intros [->|[->| ->]]; reflexivity. Qed.

(** *** The claims about the cache *)

(** C1. [subscribe(listener)] registers the listener and calls it at once
    with the value the cache holds at that moment: that call is the first
    thing logged, the listener is in the set when it happens, and the
    listener is not called a second time before some later mutation starts
    its fan-out.  A listener whose body does not call back into the cache
    makes [subscribe] return with exactly that one call logged and the
    cached value untouched. *)
Theorem subscribe_replays_current_value behav l :
  (∀ s, Some l ∈ listeners (add l s)) ∧
  (∀ fuel s s', subscribe behav fuel l s = Some s' →
     ∃ rest, events_since s s' = EvCall l (cachedUser s) :: rest ∧
             (never_subscribes behav l → calls_of l (before_first_notify rest) = [])) ∧
  (∀ fuel s, behav l (trace s) (cachedUser s) = [] → 3 ≤ fuel →
     subscribe behav fuel l s = Some (log (EvCall l (cachedUser s)) (add l s))).
Proof.
  split; [|split].
  - intros s. simpl. apply elem_of_set_add. by left.
  - intros fuel s s' Hrun. unfold subscribe in Hrun.
    destruct fuel as [|[|fuel]]; [done|done|]. simpl in Hrun.
    pose proof (run_trace _ _ _ _ _ Hrun) as Htr.
    exists (events_since (log (EvCall l (cachedUser s)) (add l s)) s'). split.
    + change (events_since s s') with (events_since (add l s) s').
      by apply events_since_log.
    + intros Hb. eapply called_by_notify_only; [done| |done]. apply Hb.
  - intros fuel s Hbody Hfuel. unfold subscribe.
    destruct fuel as [|[|[|fuel]]]; [lia|lia|lia|]. simpl. by rewrite Hbody.
Qed.

Lemma subscribe_replays_current_value_witness :
  subscribe silent 3 2 two_listeners
  = Some {| cachedUser := None; listeners := [Some 0; Some 1; Some 2];
            trace := [EvCall 0 None; EvCall 1 None; EvCall 2 None] |}.
Proof.
  apply (proj2 (proj2 (subscribe_replays_current_value silent 2)) 3 two_listeners);
    [reflexivity|lia].
Defined.

(** C2, as the code has it.  A mutation made by a listener during a
    fan-out is not put off: it runs inside the listener's call.  When the
    loop of a fan-out reaches listener [l] and the body of [l] starts with
    [setCurrentUser(user)] or [clear()], the value is stored at once, the
    whole fan-out of that mutation runs (from [s] to [s1]), then the rest
    of the body (to [s2]), and only then does the outer loop go on with its
    next entry (to [s3]); in the log the inner fan-out begins while the
    outer one is in progress. *)
Theorem reentrant_mutation_runs_inline behav fuel i l a user rest s s1 s2 s3 :
  listeners s !! i = Some (Some l) →
  behav l (trace s) (cachedUser s) = a :: rest →
  mutation a = Some user →
  notify behav fuel (assign user (log (EvCall l (cachedUser s)) s)) = Some s1 →
  run behav fuel (TBody rest) s1 = Some s2 →
  run behav fuel (TForEach (S i)) s2 = Some s3 →
  run behav (4 + fuel) (TForEach i) s = Some s3 ∧
  (∃ inner, events_since s s3 =
            EvCall l (cachedUser s) :: (EvNotifyBegin :: inner ++ [EvNotifyEnd])
              ++ events_since s1 s2 ++ events_since s2 s3) ∧
  nested_fanout 1 (events_since s s3) = true.
Proof.
  intros Hi Hbody Ha Hn Hrest Hloop.
  assert (Hact : run behav (S fuel) (TAct a) (log (EvCall l (cachedUser s)) s) = Some s1).
  { destruct a; simpl in Ha; inversion Ha; subst; exact Hn. }
  assert (Hcall : run behav (3 + fuel) (TCall l) s = Some s2).
  { change (3 + fuel) with (S (S (S fuel))).
    rewrite run_call, Hbody, run_body_cons, Hact.
    by apply (run_mono _ fuel); [|lia]. }
  assert (Hall : run behav (4 + fuel) (TForEach i) s = Some s3).
  { change (4 + fuel) with (S (3 + fuel)). rewrite run_forEach, Hi, Hcall.
    by apply (run_mono _ fuel); [|lia]. }
  pose proof (run_trace _ _ _ _ _ Hn) as T1.
  pose proof (run_trace _ _ _ _ _ Hrest) as T2.
  pose proof (run_trace _ _ _ _ _ Hloop) as T3.
  assert (Hinner : ∃ inner, events_since (log (EvCall l (cachedUser s)) s) s1
                            = EvNotifyBegin :: inner ++ [EvNotifyEnd]).
  { unfold notify in Hn. destruct fuel as [|fuel']; [done|]. simpl in Hn.
    destruct (run behav fuel' (TForEach 0) _) as [s0|] eqn:E; [|done].
    inversion Hn; subst. apply run_trace in E. simpl in E.
    exists (events_since (log EvNotifyBegin (assign user (log (EvCall l (cachedUser s)) s))) s0).
    apply events_since_eq. simpl. rewrite E. by rewrite <- !app_assoc. }
  destruct Hinner as [inner Hinner].
  assert (Hev : events_since s s3 =
                EvCall l (cachedUser s) :: (EvNotifyBegin :: inner ++ [EvNotifyEnd])
                  ++ events_since s1 s2 ++ events_since s2 s3).
  { rewrite <- Hinner. apply events_since_eq.
    rewrite T3, T2, T1. simpl.
    change (events_since (assign user (log (EvCall l (cachedUser s)) s)) s1)
      with (events_since (log (EvCall l (cachedUser s)) s) s1).
    by rewrite <- !app_assoc. }
  split; [done|]. split; [by exists inner|]. by rewrite Hev.
Qed.

(** C2, as the claim states it, fails: with listeners 0 and 1 registered,
    where listener 0 answers the arrival of [alice] with
    [setCurrentUser(alice_renamed)], the call [setCurrentUser(alice)]
    starts the second fan-out before listener 1 has been told of the first
    mutation. *)
Lemma reentrant_mutation_not_deferred :
  (∃ s', setCurrentUser reacting 11 (Some alice) two_listeners = Some s' ∧
         events_since two_listeners s' =
                    [EvNotifyBegin; EvCall 0 (Some alice);
                       EvNotifyBegin; EvCall 0 (Some alice_renamed);
                                      EvCall 1 (Some alice_renamed); EvNotifyEnd;
                     EvCall 1 (Some alice_renamed); EvNotifyEnd]) ∧
  ¬ (∀ behav fuel a s s', is_Some (mutation a) → run behav fuel (TAct a) s = Some s' →
       nested_fanout 0 (events_since s s') = false).
Proof.
  split.
  - eexists. split; reflexivity.
  - intros H.
    specialize (H reacting 11 (ASetCurrentUser (Some alice)) two_listeners _
                  (mk_is_Some _ _ eq_refl) eq_refl).
    vm_compute in H. discriminate H.
Qed.

Lemma reentrant_mutation_runs_inline_witness :
  run reacting 11 (TForEach 0) (log EvNotifyBegin (assign (Some alice) two_listeners))
  = Some {| cachedUser := Some alice_renamed; listeners := [Some 0; Some 1];
            trace := [EvCall 0 None; EvCall 1 None;
                      EvNotifyBegin; EvCall 0 (Some alice);
                        EvNotifyBegin; EvCall 0 (Some alice_renamed);
                                       EvCall 1 (Some alice_renamed); EvNotifyEnd;
                      EvCall 1 (Some alice_renamed)] |}.
Proof.
  pose (s1 := {| cachedUser := Some alice_renamed; listeners := [Some 0; Some 1];
                 trace := [EvCall 0 None; EvCall 1 None;
                           EvNotifyBegin; EvCall 0 (Some alice);
                           EvNotifyBegin; EvCall 0 (Some alice_renamed);
                           EvCall 1 (Some alice_renamed); EvNotifyEnd] |}).
  exact (proj1 (reentrant_mutation_runs_inline reacting 7 0 0
                  (ASetCurrentUser (Some alice_renamed)) (Some alice_renamed) []
                  (log EvNotifyBegin (assign (Some alice) two_listeners)) s1 s1 _
                  eq_refl eq_refl eq_refl eq_refl eq_refl eq_refl)).
Defined.

(** C10. Once the closure returned by [subscribe(l)] has been called, [l]
    is called no more, as long as nobody subscribes [l] again: not by the
    fan-out that is running when the closure is called (be it from the body
    of [l] itself), not by any fan-out that encloses it, and not by any
    later [setCurrentUser] or [clear].  The closure always returns, and
    calling it again changes neither the listener set nor the cached
    value. *)
Theorem unsubscribe_stops_notifications behav l :
  (∀ fuel t s s', never_subscribes behav l → wf s → apart_from l t →
     run behav fuel t s = Some s' →
     quiet_after_unsub l (events_since s s')) ∧
  (∀ fuel fuel' a s s1 s2, never_subscribes behav l → wf s → is_Some (mutation a) →
     unsubscribe behav fuel l s = Some s1 → run behav fuel' (TAct a) s1 = Some s2 →
     (Some l ∉ listeners s1) ∧ calls_of l (events_since s1 s2) = []) ∧
  (∀ fuel s, wf s →
     ∃ s1 s2, unsubscribe behav (S fuel) l s = Some s1 ∧
              unsubscribe behav (S fuel) l s1 = Some s2 ∧
              listeners s2 = listeners s1 ∧ cachedUser s2 = cachedUser s1 ∧
              cachedUser s1 = cachedUser s).
Proof.
  split; [|split].
  - intros fuel t s s' Hb Hwf Ht Hrun.
    by apply (unsub_respected behav fuel l t s s' Hb Ht Hwf Hrun).
  - intros fuel fuel' a s s1 s2 Hb Hwf [u Ha] Hun Hrun.
    unfold unsubscribe in Hun. destruct fuel as [|fuel]; [done|]. simpl in Hun.
    inversion Hun; subst. clear Hun.
    assert (Hgone : Some l ∉ listeners (delete_listener l (log (EvUnsub l) s)))
      by (by apply set_delete_gone).
    split; [done|].
    eapply proj2, (unregistered_stays behav fuel' l (TAct a)); [done| |done|done].
    destruct a; simpl in *; done.
  - intros fuel s Hwf. eexists _, _. split; [reflexivity|]. split; [reflexivity|].
    simpl. split; [|done].
    apply set_delete_absent. by apply set_delete_gone.
Qed.

Lemma unsubscribe_stops_notifications_witness :
  ∃ s', setCurrentUser leaving 9 (Some alice) two_listeners = Some s' ∧
        quiet_after_unsub 0 (events_since two_listeners s').
Proof.
  assert (H : never_subscribes leaving 0).
  { intros [|l'] tr [u|]; simpl; try apply not_elem_of_nil.
    intros Hin. apply list_elem_of_singleton in Hin. discriminate Hin. }
  eexists. split; [reflexivity|].
  apply (proj1 (unsubscribe_stops_notifications leaving 0) 9
               (TAct (ASetCurrentUser (Some alice))) two_listeners).
  - exact H.
  - unfold wf. simpl. apply NoDup_cons. split; [|apply NoDup_singleton].
    intros Hin. apply list_elem_of_singleton in Hin. discriminate Hin.
  - exact I.
  - reflexivity.
Defined.

End CacheProofs.

(** * Properties of the account-settings controller *)

Module SettingsProofs.

Import UserCache Scenarios AccountSettings.

#[local] Open Scope string_scope.
#[local] Open Scope nat_scope.

Lemma length_pos_iff (s : string) : bool_decide (0 < String.length s) = true ↔ s ≠ "".
Proof.
  rewrite bool_decide_eq_true. destruct s; simpl; split; (done || lia).
Qed.

(** Case analysis on the comparisons of the code. *)
Ltac decide_neq a b :=
  destruct (decide (a = b));
  [rewrite ?(bool_decide_false (a ≠ b)) by tauto
  |rewrite ?(bool_decide_true (a ≠ b)) by tauto].

Ltac settle :=
  rewrite ?andb_false_r, ?orb_true_r, ?andb_true_r, ?orb_false_r; simpl;
  intuition (subst; congruence).

Lemma length_pos_decide (s : string) :
  bool_decide (0 < String.length s) = bool_decide (s ≠ "").
Proof. apply bool_decide_ext. destruct s; simpl; split; (done || lia). Qed.

Lemma hasPasswordChanges_true f :
  hasPasswordChanges f = true ↔ password f ≠ "" ∨ passwordConfirmation f ≠ "".
Proof.
  unfold hasPasswordChanges. rewrite orb_true_iff, !length_pos_iff. done.
Qed.

Lemma hasPasswordChanges_false f :
  hasPasswordChanges f = false ↔ password f = "" ∧ passwordConfirmation f = "".
Proof.
  rewrite <- not_true_iff_false, hasPasswordChanges_true.
  destruct (decide (password f = "")), (decide (passwordConfirmation f = "")); tauto.
Qed.

Lemma truthy_true s : truthy s = true ↔ s ≠ "".
Proof. unfold truthy. apply bool_decide_eq_true. Qed.

Lemma or_else_empty s : or_else s "" = s.
Proof. unfold or_else, truthy. case_bool_decide as H; done. Qed.

(** The subscription callback touches neither the error map, nor the
    status message, nor the submitting flag. *)
Lemma onUserChange_keeps v c :
  fieldErrors (onUserChange v c) = fieldErrors c ∧
  successMessage (onUserChange v c) = successMessage c ∧
  isSubmitting (onUserChange v c) = isSubmitting c ∧
  isMounted (onUserChange v c) = isMounted c.
Proof.
  unfold onUserChange. destruct (isMounted c) eqn:Hm; simpl; [|by rewrite Hm].
  destruct v as [u|]; simpl; [|done].
  destruct (hasInitializedRef c); simpl; done.
Qed.

Section Facts.

Variable trim : string → string.
Variable toLowerCase : string → string.
Variable behav : Behaviour.
Variable self : Listener.

Lemma deliver_keeps events c :
  fieldErrors (deliver self events c) = fieldErrors c ∧
  successMessage (deliver self events c) = successMessage c ∧
  isSubmitting (deliver self events c) = isSubmitting c ∧
  isMounted (deliver self events c) = isMounted c.
Proof.
  unfold deliver. revert c. induction events as [|e r IH]; intros c; simpl; [done|].
  destruct e as [| |l v|l]; try apply IH.
  case_decide; [|apply IH].
  destruct (IH (onUserChange v c)) as (-> & -> & -> & ->). apply onUserChange_keeps.
Qed.

(** *** The change-set *)

(** What lines 137 to 156 put into the payload. *)
Lemma build_payload_rules c cu :
  currentUser c = Some cu →
  let f := formState c in
  let p := build_payload trim toLowerCase c cu in
  (∀ x, payload_username p = Some x ↔
        x = trim (username f) ∧ x ≠ "" ∧ x ≠ Types.username cu) ∧
  (∀ x, payload_email p = Some x ↔
        x = trim (email f) ∧ x ≠ "" ∧ toLowerCase x ≠ toLowerCase (Types.email cu)) ∧
  (∀ x, payload_avatar p = Some (Some x) ↔
        x = trim (avatar f) ∧ x ≠ "" ∧ x ≠ nullish (Types.avatar cu) "") ∧
  (payload_avatar p = Some None ↔
        trim (avatar f) = "" ∧ nullish (Types.avatar cu) "" ≠ "") ∧
  (∀ x y, payload_password p = Some x ∧ payload_password_confirmation p = Some y ↔
        x = password f ∧ y = passwordConfirmation f ∧
        (password f ≠ "" ∨ passwordConfirmation f ≠ "")) ∧
  (payload_password p = None ∧ payload_password_confirmation p = None ↔
        password f = "" ∧ passwordConfirmation f = "").
Proof.
  intros Hcu f p.
  subst p. unfold build_payload, hasProfileChanges, trimmedAvatar, hasPasswordChanges.
  rewrite Hcu, or_else_empty, !length_pos_decide. fold f.
  cbn [payload_username payload_email payload_avatar
       payload_password payload_password_confirmation].
  split; [|split; [|split; [|split; [|split]]]].
  - intros x. unfold truthy.
    decide_neq (trim (username f)) (Types.username cu); decide_neq (trim (username f)) "";
      settle.
  - intros x. unfold truthy.
    decide_neq (toLowerCase (trim (email f))) (toLowerCase (Types.email cu));
      decide_neq (trim (email f)) ""; settle.
  - intros x.
    decide_neq (trim (avatar f)) (nullish (Types.avatar cu) ""); decide_neq (trim (avatar f)) "";
      settle.
  - decide_neq (trim (avatar f)) (nullish (Types.avatar cu) ""); decide_neq (trim (avatar f)) "";
      settle.
  - intros x y. decide_neq (password f) ""; decide_neq (passwordConfirmation f) ""; settle.
  - decide_neq (password f) ""; decide_neq (passwordConfirmation f) ""; settle.
Qed.

Lemma keys_length_zero p :
  keys_length p = 0 ↔
  payload_username p = None ∧ payload_email p = None ∧ payload_avatar p = None ∧
  payload_password p = None ∧ payload_password_confirmation p = None.
Proof.
  destruct p as [[?|] [?|] [?|] [?|] [?|]]; unfold keys_length; simpl;
    split; try done; try lia; intros (? & ? & ? & ? & ?); done.
Qed.

(** C8, as the code has it.  With a user [cu] loaded, [handleSubmit]
    sends nothing when password and confirmation differ.  When they agree
    it builds one change-set [p] and sends exactly [p] if [p] has a key,
    and nothing (the "nothing to update" message) if it has none.  In [p]
    the username goes out, trimmed, exactly when the trimmed form value is
    non-empty and differs from the user's username as stored; the email
    goes out, trimmed, exactly when the trimmed form value is non-empty
    and differs from the user's stored email after both are lower-cased;
    the avatar goes out exactly when the trimmed form value differs from
    the user's stored avatar (an absent one counting as empty), as the
    trimmed value or, when that is empty, as the explicit [null]; password
    and confirmation go out together, as typed, exactly when they are
    non-empty. *)
Theorem change_set_sent w cu :
  currentUser (ctrl w) = Some cu →
  let f := formState (ctrl w) in
  (password f ≠ passwordConfirmation f →
     ∃ w', handleSubmit trim toLowerCase w = Returned w' ∧ requests w' = requests w) ∧
  (password f = passwordConfirmation f →
     ∃ p,
       (∀ x, payload_username p = Some x ↔
             x = trim (username f) ∧ x ≠ "" ∧ x ≠ Types.username cu) ∧
       (∀ x, payload_email p = Some x ↔
             x = trim (email f) ∧ x ≠ "" ∧
             toLowerCase x ≠ toLowerCase (Types.email cu)) ∧
       (∀ x, payload_avatar p = Some (Some x) ↔
             x = trim (avatar f) ∧ x ≠ "" ∧ x ≠ nullish (Types.avatar cu) "") ∧
       (payload_avatar p = Some None ↔
             trim (avatar f) = "" ∧ nullish (Types.avatar cu) "" ≠ "") ∧
       (∀ x y, payload_password p = Some x ∧ payload_password_confirmation p = Some y ↔
             x = password f ∧ y = passwordConfirmation f ∧ password f ≠ "") ∧
       (payload_password p = None ∧ payload_password_confirmation p = None ↔
             password f = "") ∧
       (keys_length p = 0 ↔
             payload_username p = None ∧ payload_email p = None ∧ payload_avatar p = None ∧
             payload_password p = None ∧ payload_password_confirmation p = None) ∧
       handleSubmit trim toLowerCase w =
         if bool_decide (keys_length p = 0)
         then Returned (with_ctrl
                (setSuccessMessage "Nothing to update — your settings are already current."
                   (setSuccessMessage "" (setFieldErrors ∅ (ctrl w)))) w)
         else Awaiting p
                (mkWorld (setIsSubmitting true (setSuccessMessage "" (setFieldErrors ∅ (ctrl w))))
                         (cache w) (navigated w)
                         (requests w ++ [UpdateCurrentUser p])%list)).
Proof.
  intros Hcu f. split.
  - intros Hne.
    assert (Hpw : hasPasswordChanges f = true).
    { apply hasPasswordChanges_true.
      destruct (decide (password f = "")) as [E1|E1]; [|by left].
      right. congruence. }
    unfold handleSubmit. simpl. fold f. rewrite Hcu, Hpw, bool_decide_true by done. simpl.
    eexists. split; [reflexivity|]. done.
  - intros Heq.
    destruct (build_payload_rules (ctrl w) cu Hcu) as (H1 & H2 & H3 & H4 & H5 & H6).
    exists (build_payload trim toLowerCase (ctrl w) cu).
    do 4 (split; [assumption|]). fold f in H5, H6. split; [|split; [|split]].
    + intros x y. rewrite H5. rewrite <- Heq. tauto.
    + rewrite H6. rewrite <- Heq. tauto.
    + apply keys_length_zero.
    + unfold handleSubmit. simpl. fold f. rewrite Hcu.
      rewrite (bool_decide_false (password f ≠ passwordConfirmation f)) by tauto.
      rewrite andb_false_r. reflexivity.
Qed.

(** C6, as the code has it.  A form whose trimmed username is the last
    known user's username as stored, whose trimmed email is that user's
    stored email up to letter case, whose trimmed avatar is that user's
    stored avatar (an absent one counting as empty), and whose password
    fields are both empty, is answered with the "nothing to update"
    message; no request is sent and nothing else changes. *)
Theorem unchanged_form_is_noop w cu :
  currentUser (ctrl w) = Some cu →
  trim (username (formState (ctrl w))) = Types.username cu →
  toLowerCase (trim (email (formState (ctrl w)))) = toLowerCase (Types.email cu) →
  trim (avatar (formState (ctrl w))) = nullish (Types.avatar cu) "" →
  password (formState (ctrl w)) = "" →
  passwordConfirmation (formState (ctrl w)) = "" →
  ∃ w', handleSubmit trim toLowerCase w = Returned w' ∧
        successMessage (ctrl w') = "Nothing to update — your settings are already current." ∧
        fieldErrors (ctrl w') = ∅ ∧
        isSubmitting (ctrl w') = isSubmitting (ctrl w) ∧
        formState (ctrl w') = formState (ctrl w) ∧
        requests w' = requests w ∧ cache w' = cache w ∧ navigated w' = navigated w.
Proof.
  intros Hcu Hu He Ha Hp Hc.
  unfold handleSubmit. simpl. rewrite Hcu.
  unfold build_payload, hasProfileChanges, trimmedAvatar, hasPasswordChanges. simpl.
  rewrite Hcu, or_else_empty, Hu, He, Ha, Hp, Hc. simpl.
  rewrite (bool_decide_false (Types.username cu ≠ Types.username cu)),
          (bool_decide_false (toLowerCase (Types.email cu) ≠ toLowerCase (Types.email cu))),
          (bool_decide_false (nullish (Types.avatar cu) "" ≠ nullish (Types.avatar cu) ""))
    by (intros HH; apply HH; reflexivity).
  simpl. eexists. split; [reflexivity|]. done.
Qed.

(** C7. In the [Ready] state, a form whose password and confirmation
    differ is answered with the error on the confirmation field and nothing
    else: no request is sent, the form and the cache are untouched and the
    controller is still [Ready]. *)
Theorem mismatched_passwords_rejected_locally w :
  phase (ctrl w) = Ready →
  password (formState (ctrl w)) ≠ passwordConfirmation (formState (ctrl w)) →
  ∃ w', handleSubmit trim toLowerCase w = Returned w' ∧
        fieldErrors (ctrl w') = {["passwordConfirmation" := "Passwords do not match."]} ∧
        successMessage (ctrl w') = "" ∧
        phase (ctrl w') = Ready ∧
        formState (ctrl w') = formState (ctrl w) ∧
        requests w' = requests w ∧ cache w' = cache w ∧ navigated w' = navigated w.
Proof.
  intros Hready Hne.
  assert (Hcu : is_Some (currentUser (ctrl w))).
  { unfold phase in Hready. destruct (isSubmitting (ctrl w)), (isLoading (ctrl w)); try done.
    destruct (currentUser (ctrl w)); [by eexists|]. by destruct (truthy _). }
  destruct Hcu as [cu Hcu].
  assert (Hpw : hasPasswordChanges (formState (ctrl w)) = true).
  { apply hasPasswordChanges_true.
    destruct (decide (password (formState (ctrl w)) = "")) as [E1|E1]; [|by left].
    right. congruence. }
  unfold handleSubmit. simpl. rewrite Hcu, Hpw, bool_decide_true by done. simpl.
  eexists. split; [reflexivity|]. simpl. repeat split.
  unfold phase in *. simpl. exact Hready.
Qed.

(** *** Submissions that reach the external service *)

Lemma finally_clears c :
  password (formState (finally c)) = "" ∧
  passwordConfirmation (formState (finally c)) = "" ∧
  isSubmitting (finally c) = false ∧
  fieldErrors (finally c) = fieldErrors c.
Proof. done. Qed.

Lemma handleSubmit_awaiting w p w1 :
  handleSubmit trim toLowerCase w = Awaiting p w1 →
  fieldErrors (ctrl w1) = ∅ ∧ isSubmitting (ctrl w1) = true ∧
  cache w1 = cache w ∧ navigated w1 = navigated w.
Proof.
  unfold handleSubmit. simpl. destruct (currentUser (ctrl w)); [|done].
  destruct (_ && _); [done|]. case_bool_decide as Hk; [done|].
  intros HA. by inversion HA.
Qed.

(** C3, as the code has it.  A submission answered with status 401 clears
    the cache and calls [navigate('/login')] once; the error map stays
    empty, whatever the body of the response (the listeners are taken not
    to call back into the cache, as the component's own callback does not,
    and the fuel covers one fan-out).  The initial fetch has no such
    branch: a failed fetch, whatever the error, neither navigates nor
    touches the cache, and a mounted component shows the load error. *)
Theorem unauthorized_submission_logs_out :
  passive behav →
  (∀ w p w1 data fuel,
     handleSubmit trim toLowerCase w = Awaiting p w1 →
     length (listeners (cache w1)) + 4 ≤ fuel →
     ∃ w', handleSubmit_rejected behav self fuel (AxiosResponse 401 data) w1 = Some w' ∧
           cachedUser (cache w') = None ∧
           navigated w' = (navigated w ++ ["/login"])%list ∧
           fieldErrors (ctrl w') = ∅ ∧
           requests w' = requests w1) ∧
  (∀ error w,
     navigated (fetchUser_rejected error w) = navigated w ∧
     cache (fetchUser_rejected error w) = cache w ∧
     requests (fetchUser_rejected error w) = requests w ∧
     (isMounted (ctrl w) = true →
      loadError (ctrl (fetchUser_rejected error w)) = "Failed to load account details." ∧
      isLoading (ctrl (fetchUser_rejected error w)) = false)).
Proof.
  intros Hp. split.
  - intros w p w1 data fuel Hs Hfuel.
    apply handleSubmit_awaiting in Hs as (Herr & _ & Hcache & Hnav).
    unfold handleSubmit_rejected, UserCache.clear. simpl.
    rewrite (CacheProofs.passive_mutation behav AClear None (cache w1) fuel Hp eq_refl Hfuel).
    eexists. split; [reflexivity|]. simpl. rewrite Hnav.
    repeat split. by rewrite (proj1 (deliver_keeps _ _)).
  - intros error w. unfold fetchUser_rejected.
    destruct (isMounted (ctrl w)); simpl; done.
Qed.

(** C4. A submission the external service accepted leaves in the cache the
    user the service returned, whatever the form holds (the listeners are
    taken not to call back into the cache, and the fuel covers one
    fan-out); one it refused with anything but status 401 leaves the cache
    as it was. *)
Theorem submission_outcome_in_cache :
  passive behav →
  (∀ w updatedUser fuel,
     length (listeners (cache w)) + 4 ≤ fuel →
     ∃ w', handleSubmit_resolved behav self fuel updatedUser w = Some w' ∧
           cachedUser (cache w') = Some updatedUser) ∧
  (∀ w error fuel,
     (∀ data, error ≠ AxiosResponse 401 data) →
     ∃ w', handleSubmit_rejected behav self fuel error w = Some w' ∧
           cache w' = cache w).
Proof.
  intros Hp. split.
  - intros w u fuel Hfuel. unfold handleSubmit_resolved, UserCache.setCurrentUser.
    rewrite (CacheProofs.passive_mutation behav (ASetCurrentUser (Some u)) (Some u)
               (cache w) fuel Hp eq_refl Hfuel).
    eexists. split; [reflexivity|]. done.
  - intros w error fuel Hne. unfold handleSubmit_rejected.
    destruct error as [status data|].
    + case_bool_decide as Hs; [by subst; destruct (Hne data)|].
      destruct data; eexists; (split; [reflexivity|]); done.
    + eexists. split; [reflexivity|]. done.
Qed.

(** C5, as the code has it.  Every submission that reached the external
    service ends with both password fields empty, whatever the answer; so
    does the "nothing to update" outcome, which is only reached with both
    fields empty.  A submission that [handleSubmit] answers on its own
    leaves the form as it was typed. *)
Theorem passwords_cleared_after_round_trip :
  passive behav →
  (∀ w updatedUser fuel,
     length (listeners (cache w)) + 4 ≤ fuel →
     ∃ w', handleSubmit_resolved behav self fuel updatedUser w = Some w' ∧
           password (formState (ctrl w')) = "" ∧
           passwordConfirmation (formState (ctrl w')) = "") ∧
  (∀ w error fuel,
     length (listeners (cache w)) + 4 ≤ fuel →
     ∃ w', handleSubmit_rejected behav self fuel error w = Some w' ∧
           password (formState (ctrl w')) = "" ∧
           passwordConfirmation (formState (ctrl w')) = "") ∧
  (∀ w w',
     handleSubmit trim toLowerCase w = Returned w' →
     successMessage (ctrl w') ≠ "" →
     password (formState (ctrl w')) = "" ∧
     passwordConfirmation (formState (ctrl w')) = "") ∧
  (∀ w w',
     handleSubmit trim toLowerCase w = Returned w' →
     formState (ctrl w') = formState (ctrl w)).
Proof.
  intros Hp. split; [|split; [|split]].
  - intros w u fuel Hfuel. unfold handleSubmit_resolved, UserCache.setCurrentUser.
    rewrite (CacheProofs.passive_mutation behav (ASetCurrentUser (Some u)) (Some u)
               (cache w) fuel Hp eq_refl Hfuel).
    eexists. split; [reflexivity|]. done.
  - intros w error fuel Hfuel. unfold handleSubmit_rejected.
    destruct error as [status data|].
    + case_bool_decide as Hs.
      * unfold UserCache.clear.
        rewrite (CacheProofs.passive_mutation behav AClear None (cache w) fuel Hp eq_refl Hfuel).
        eexists. split; [reflexivity|]. done.
      * destruct data; eexists; (split; [reflexivity|]); done.
    + eexists. split; [reflexivity|]. done.
  - intros w w'. unfold handleSubmit. simpl.
    destruct (currentUser (ctrl w)) as [cu|]; [|intros H; by inversion H].
    destruct (_ && _); [intros H; by inversion H|].
    case_bool_decide as Hk; [|done].
    intros H _. inversion H; subst. simpl. clear H.
    apply hasPasswordChanges_false.
    unfold keys_length, build_payload in Hk. simpl in Hk.
    destruct (hasPasswordChanges (formState (ctrl w))); [|done]. lia.
  - intros w w'. unfold handleSubmit. simpl.
    destruct (currentUser (ctrl w)) as [cu|]; [|intros H; by inversion H].
    destruct (_ && _); [intros H; by inversion H|].
    case_bool_decide as Hk; [|done].
    intros H. by inversion H.
Qed.

End Facts.

(** *** Server error mapping *)

(** Outside the names inherited from [Object.prototype], every key of
    the error record lands in the slot the specification gives it. *)
Lemma map_entry_slot key value (m : gmap string string) :
  key ∉ object_prototype_keys →
  map_entry m (key, value) = <[slot_of key := message_of value]> m.
Proof.
  intros Hk. unfold map_entry, slot_of, key_in_formState, assign_property.
  case_bool_decide as H1; [done|].
  rewrite (bool_decide_false (key ∈ object_prototype_keys)) by done.
  rewrite orb_false_r.
  case_bool_decide as H2; [|done].
  rewrite bool_decide_false; [done|].
  intros ->. apply Hk. unfold object_prototype_keys.
  do 10 apply list_elem_of_further. apply list_elem_of_here.
Qed.

(** A response keyed by [password_confirmation] and [email] fills exactly
    the confirmation and email fields. *)
Lemma confirmation_and_email_errors e v1 v2 :
  validation_errors (mkData e (Some [("password_confirmation", v1); ("email", v2)]))
  = <["email" := message_of v2]> {["passwordConfirmation" := message_of v1]}.
Proof. reflexivity. Qed.

(** C9 at a key the code gets wrong.  The server's error record
    [{ toString: "boom" }] names no form field, so its message belongs in
    the general slot; [key in formState] finds [toString] on the
    prototype, and the message is stored under [toString], which no part
    of the form shows: the general slot stays unset. *)
Lemma inherited_key_misses_general_slot :
  slot_of "toString" = "general" ∧
  validation_errors (mkData None (Some [("toString", One "boom")])) = {["toString" := "boom"]} ∧
  validation_errors (mkData None (Some [("toString", One "boom")])) !! "general" = None.
Proof. split; [|split]; reflexivity. Qed.

(** *** The claims at concrete forms *)

Lemma passive_silent : passive silent.
Proof. intros l tr v. reflexivity. Qed.

(** The situations are reached by the program: mounting over the empty
    cache gives [loading]; the answer [alice] to the fetch seeds the form;
    typing gives the forms. *)
Example loading_reached :
  effect silent 0 3 (mkWorld (render_initial initial) initial [] []) = Some loading.
Proof. reflexivity. Qed.

Example mounted_reached :
  fetchUser_resolved silent 0 5 alice loading = Some (mounted (defaultFormState (Some alice))).
Proof. reflexivity. Qed.

Example mistyped_reached :
  handleFieldChange FPasswordConfirmation "secret2"
    (handleFieldChange FPassword "secret1" (ctrl (mounted (defaultFormState (Some alice)))))
  = ctrl (mounted mistyped).
Proof. reflexivity. Qed.

Example renaming_reached :
  handleFieldChange FPasswordConfirmation "pw"
    (handleFieldChange FPassword "pw"
       (handleFieldChange FUsername "alicia" (ctrl (mounted (defaultFormState (Some alice))))))
  = ctrl (mounted renaming).
Proof. reflexivity. Qed.

Example seeded_reached :
  fetchUser_resolved silent 0 5 carol loading = Some (seeded carol).
Proof. reflexivity. Qed.

Lemma change_set_sent_witness :
  ∃ p, (payload_username p = Some "alicia" ↔
        "alicia" = trim_ascii (username renaming) ∧ "alicia" ≠ "" ∧
        "alicia" ≠ Types.username alice) ∧
       handleSubmit trim_ascii lower_ascii (mounted renaming) =
         if bool_decide (keys_length p = 0)
         then Returned (with_ctrl
                (setSuccessMessage "Nothing to update — your settings are already current."
                   (setSuccessMessage "" (setFieldErrors ∅ (ctrl (mounted renaming)))))
                (mounted renaming))
         else Awaiting p
                (mkWorld (setIsSubmitting true
                            (setSuccessMessage "" (setFieldErrors ∅ (ctrl (mounted renaming)))))
                         (cache (mounted renaming)) (navigated (mounted renaming))
                         (requests (mounted renaming) ++ [UpdateCurrentUser p])%list).
Proof.
  destruct (proj2 (change_set_sent trim_ascii lower_ascii (mounted renaming) alice eq_refl)
              eq_refl) as (p & H1 & _ & _ & _ & _ & _ & _ & H8).
  exists p. split; [exact (H1 "alicia")|exact H8].
Defined.

(** C8, as the claim states it, fails.  "Differ under those rules": the
    form seeded from [carol], whose stored username ends in a blank, holds
    that very username, equal to the stored one also after trimming both;
    the code compares the trimmed form value with the stored value as it
    is and puts the username into the change-set.  "Exactly when at least
    one is non-empty": with two passwords that differ nothing is sent. *)
Lemma stored_blank_enters_change_set :
  username (formState (ctrl (seeded carol))) = Types.username carol ∧
  trim_ascii (username (formState (ctrl (seeded carol)))) = trim_ascii (Types.username carol) ∧
  payload_username (build_payload trim_ascii lower_ascii (ctrl (seeded carol)) carol)
    = Some "carol" ∧
  (∃ w', handleSubmit trim_ascii lower_ascii (mounted mistyped) = Returned w' ∧
         requests w' = requests (mounted mistyped) ∧
         password (formState (ctrl (mounted mistyped))) ≠ "") ∧
  ¬ (∀ trim toLowerCase c cu x, currentUser c = Some cu →
       payload_username (build_payload trim toLowerCase c cu) = Some x →
       trim (username (formState c)) ≠ trim (Types.username cu)).
Proof.
  split; [reflexivity|]. split; [reflexivity|]. split; [reflexivity|]. split.
  - eexists. split; [reflexivity|]. split; [reflexivity|]. discriminate.
  - intros H.
    apply (H trim_ascii lower_ascii (ctrl (seeded carol)) carol "carol" eq_refl eq_refl).
    reflexivity.
Qed.

(** C6, as the claim states it, fails: the form seeded from [carol] is
    identical to the cached user, field by field and also after trimming
    both sides, and both password fields are empty; submitting it sends a
    request that renames the user to the trimmed username. *)
Lemma stored_blank_defeats_noop :
  formState (ctrl (seeded carol)) = defaultFormState (Some carol) ∧
  same_under_rules trim_ascii lower_ascii (formState (ctrl (seeded carol))) carol ∧
  (∃ w', handleSubmit trim_ascii lower_ascii (seeded carol)
         = Awaiting (mkPayload (Some "carol") None None None None) w' ∧
         requests w'
         = [GetCurrentUser; UpdateCurrentUser (mkPayload (Some "carol") None None None None)]) ∧
  ¬ (∀ trim toLowerCase w cu, currentUser (ctrl w) = Some cu →
       same_under_rules trim toLowerCase (formState (ctrl w)) cu →
       password (formState (ctrl w)) = "" → passwordConfirmation (formState (ctrl w)) = "" →
       ∃ w', handleSubmit trim toLowerCase w = Returned w' ∧ requests w' = requests w).
Proof.
  split; [reflexivity|]. split; [by repeat split|]. split.
  - eexists. split; reflexivity.
  - intros H.
    destruct (H trim_ascii lower_ascii (seeded carol) carol eq_refl
                ltac:(by repeat split) eq_refl eq_refl) as (w' & Hr & _).
    discriminate Hr.
Qed.

Lemma unchanged_form_is_noop_witness :
  ∃ w', handleSubmit trim_ascii lower_ascii (mounted untouched) = Returned w' ∧
        successMessage (ctrl w') = "Nothing to update — your settings are already current." ∧
        fieldErrors (ctrl w') = ∅ ∧
        isSubmitting (ctrl w') = false ∧
        formState (ctrl w') = untouched ∧
        requests w' = [GetCurrentUser] ∧ cache w' = cache (mounted untouched) ∧
        navigated w' = [].
Proof.
  exact (unchanged_form_is_noop trim_ascii lower_ascii (mounted untouched) alice
           eq_refl eq_refl eq_refl eq_refl eq_refl eq_refl).
Defined.

Lemma mismatched_passwords_rejected_locally_witness :
  ∃ w', handleSubmit trim_ascii lower_ascii (mounted mistyped) = Returned w' ∧
        fieldErrors (ctrl w') = {["passwordConfirmation" := "Passwords do not match."]} ∧
        successMessage (ctrl w') = "" ∧
        phase (ctrl w') = Ready ∧
        formState (ctrl w') = mistyped ∧
        requests w' = [GetCurrentUser] ∧ cache w' = cache (mounted mistyped) ∧
        navigated w' = [].
Proof.
  apply (mismatched_passwords_rejected_locally trim_ascii lower_ascii (mounted mistyped)).
  - reflexivity.
  - simpl. discriminate.
Defined.

(** C3, as the claim states it, fails for the initial fetch: answered with
    status 401, the waiting component shows the load error and
    [navigate] is not called. *)
Lemma unauthorized_fetch_does_not_navigate :
  navigated (fetchUser_rejected (AxiosResponse 401 (Some (mkData None None))) loading) = [] ∧
  loadError (ctrl (fetchUser_rejected (AxiosResponse 401 (Some (mkData None None))) loading))
    = "Failed to load account details." ∧
  ¬ (∀ data w, isMounted (ctrl w) = true →
       navigated (fetchUser_rejected (AxiosResponse 401 data) w)
       = (navigated w ++ ["/login"])%list).
Proof.
  split; [reflexivity|]. split; [reflexivity|].
  intros H. specialize (H (Some (mkData None None)) loading eq_refl). discriminate H.
Qed.

Lemma unauthorized_submission_logs_out_witness :
  ∃ w', handleSubmit_rejected silent 0 5 (AxiosResponse 401 (Some (mkData None None)))
          (submitted (mounted renaming)) = Some w' ∧
        cachedUser (cache w') = None ∧
        navigated w' = ["/login"] ∧
        fieldErrors (ctrl w') = ∅ ∧
        requests w' = requests (submitted (mounted renaming)).
Proof.
  eapply (proj1 (unauthorized_submission_logs_out trim_ascii lower_ascii silent 0 passive_silent)
            (mounted renaming) _ (submitted (mounted renaming)) (Some (mkData None None)) 5).
  - reflexivity.
  - simpl. lia.
Defined.

Lemma submission_outcome_in_cache_witness :
  ∃ w', handleSubmit_resolved silent 0 5 alice_renamed (submitted (mounted renaming)) = Some w' ∧
        cachedUser (cache w') = Some alice_renamed.
Proof.
  apply (proj1 (submission_outcome_in_cache silent 0 passive_silent)
           (submitted (mounted renaming)) alice_renamed 5).
  simpl. lia.
Defined.

(** C5, as the claim states it, fails for the local validation failure:
    with two passwords that differ, [handleSubmit] returns before its
    [try] and both fields keep what was typed. *)
Lemma mismatch_keeps_passwords :
  (∃ w', handleSubmit trim_ascii lower_ascii (mounted mistyped) = Returned w' ∧
         password (formState (ctrl w')) = "secret1" ∧
         passwordConfirmation (formState (ctrl w')) = "secret2") ∧
  ¬ (∀ trim toLowerCase w w', handleSubmit trim toLowerCase w = Returned w' →
       password (formState (ctrl w')) = "" ∧ passwordConfirmation (formState (ctrl w')) = "").
Proof.
  split.
  - eexists. split; [reflexivity|]. split; reflexivity.
  - intros H.
    destruct (H trim_ascii lower_ascii (mounted mistyped) _ eq_refl) as [H1 _].
    discriminate H1.
Qed.

Lemma passwords_cleared_after_round_trip_witness :
  ∃ w', handleSubmit_rejected silent 0 5
          (AxiosResponse 422 (Some (mkData None (Some [("email", One "has already been taken")]))))
          (submitted (mounted renaming)) = Some w' ∧
        password (formState (ctrl w')) = "" ∧
        passwordConfirmation (formState (ctrl w')) = "".
Proof.
  apply (proj1 (proj2 (passwords_cleared_after_round_trip trim_ascii lower_ascii silent 0
                         passive_silent))
           (submitted (mounted renaming))
           (AxiosResponse 422 (Some (mkData None (Some [("email", One "has already been taken")])))) 5).
  simpl. lia.
Defined.

End SettingsProofs.

(** * Further properties of the cache *)

Module CacheExtras.

Import UserCache Scenarios CacheProofs.

Lemma calls_of_map_call l user (ls : list Listener) :
  NoDup ls →
  calls_of l (map (λ l', EvCall l' user) ls) = if decide (l ∈ ls) then [user] else [].
Proof.
  induction ls as [|l0 r IH]; intros Hd; simpl.
  - destruct (decide (l ∈ [])) as [Hin|_]; [by apply elem_of_nil in Hin|done].
  - apply NoDup_cons in Hd as [Hn Hd]. rewrite (IH Hd).
    destruct (decide (l0 = l)) as [->|Hne].
    + destruct (decide (l ∈ r)); [done|].
      destruct (decide (l ∈ l :: r)) as [_|Hout]; [done|].
      exfalso. apply Hout, list_elem_of_here.
    + destruct (decide (l ∈ r)) as [Hin|Hout].
      * destruct (decide (l ∈ l0 :: r)) as [_|Hout]; [done|].
        exfalso. by apply Hout, list_elem_of_further.
      * destruct (decide (l ∈ l0 :: r)) as [Hin|_]; [|done].
        apply elem_of_cons in Hin as [?|?]; [congruence|done].
Qed.

Lemma nested_fanout_without_begin depth tr :
  EvNotifyBegin ∉ tr → nested_fanout depth tr = false.
Proof.
  revert depth. induction tr as [|e r IH]; intros depth Hn; [done|].
  apply not_elem_of_cons in Hn as [He Hr].
  destruct e; simpl; auto. done.
Qed.

(** X1. With listeners that do not call back, [setCurrentUser] and
    [clear] return: the value is stored, the listener set is as before,
    the listeners are called in the order of their registration, each
    registered listener exactly once with the new value and no other
    listener at all, and no fan-out starts inside another. *)
Theorem fanout_calls_each_listener_once behav a user s fuel :
  passive behav → wf s → mutation a = Some user →
  length (listeners s) + 4 ≤ fuel →
  ∃ s', run behav fuel (TAct a) s = Some s' ∧
        getCurrentUser s' = user ∧
        listeners s' = listeners s ∧
        events_since s s' = fanout user (listeners s) ∧
        (∀ l, calls_of l (events_since s s')
              = if decide (Some l ∈ listeners s) then [user] else []) ∧
        nested_fanout 0 (events_since s s') = false.
Proof.
  intros Hp Hwf Ha Hfuel.
  rewrite (passive_mutation behav a user s fuel Hp Ha Hfuel).
  eexists. split; [reflexivity|]. simpl.
  assert (Hev : events_since s {| cachedUser := user; listeners := listeners s;
                                  trace := trace s ++ fanout user (listeners s) |}
                = fanout user (listeners s)) by (by apply events_since_eq).
  rewrite Hev. repeat split.
  - intros l. unfold fanout. simpl.
    rewrite calls_of_app, calls_of_map_call by done. simpl. rewrite app_nil_r.
    destruct (decide (l ∈ live (listeners s))) as [Hin|Hout].
    + by rewrite decide_True by (by apply elem_of_live).
    + rewrite decide_False; [done|]. by rewrite <- elem_of_live.
  - unfold fanout. simpl. apply nested_fanout_without_begin.
    rewrite elem_of_app, list_elem_of_fmap, list_elem_of_singleton.
    intros [(l & Hl & _)|Hl]; discriminate Hl.
Qed.

Lemma fanout_calls_each_listener_once_witness :
  ∃ s', run silent 6 (TAct (ASetCurrentUser (Some alice))) two_listeners = Some s' ∧
        getCurrentUser s' = Some alice ∧
        listeners s' = [Some 0; Some 1] ∧
        events_since two_listeners s'
          = [EvNotifyBegin; EvCall 0 (Some alice); EvCall 1 (Some alice); EvNotifyEnd] ∧
        (∀ l, calls_of l (events_since two_listeners s')
              = if decide (Some l ∈ listeners two_listeners) then [Some alice] else []) ∧
        nested_fanout 0 (events_since two_listeners s') = false.
Proof.
  apply (fanout_calls_each_listener_once silent (ASetCurrentUser (Some alice)) (Some alice)
           two_listeners 6).
  - intros l tr v. reflexivity.
  - unfold wf. simpl. apply NoDup_cons. split; [|apply NoDup_singleton].
    intros Hin. apply list_elem_of_singleton in Hin. discriminate Hin.
  - reflexivity.
  - simpl. lia.
Defined.

Section Quiet.

Variable behav : Behaviour.
Hypothesis Hquiet : no_mutation behav.

(** Code that does not mutate leaves the cached value alone and starts no
    fan-out, unless it is [notify] itself. *)
Lemma reads_only_keeps fuel t s s' :
  reads_only t → run behav fuel t s = Some s' →
  cachedUser s' = cachedUser s ∧
  (t ≠ TNotify → EvNotifyBegin ∉ events_since s s').
Proof.
  revert t s s'. induction fuel as [|fuel IH]; intros t s s' Ht Hrun; [done|].
  simpl in Hrun.
  destruct t as [[u| |l|l]| |i|l|[|a acts]]; try done.
  - pose proof (run_trace _ _ _ _ _ Hrun) as E.
    apply (IH (TCall l)) in Hrun as [Hc Hb]; [|done]. split; [done|].
    intros _. by apply Hb.
  - inversion Hrun; subst. split; [done|]. intros _.
    rewrite (events_since_eq s _ [EvUnsub l]) by done.
    intros Hin. apply list_elem_of_singleton in Hin. discriminate Hin.
  - destruct (run behav fuel (TForEach 0) _) as [s1|] eqn:E; [|done].
    inversion Hrun; subst. apply (IH (TForEach 0)) in E as [Hc _]; done.
  - destruct (listeners s !! i) as [[l|]|] eqn:Hi.
    + destruct (run behav fuel (TCall l) s) as [s1|] eqn:E; [|done].
      pose proof (run_trace _ _ _ _ _ E) as E1.
      pose proof (run_trace _ _ _ _ _ Hrun) as E2.
      apply (IH (TCall l)) in E as [Hc1 Hb1]; [|done].
      apply (IH (TForEach (S i))) in Hrun as [Hc2 Hb2]; [|done].
      split; [congruence|]. intros _.
      rewrite (events_since_trans s s1 s') by done.
      rewrite elem_of_app. intros [?|?]; [by apply Hb1|by apply Hb2].
    + apply (IH (TForEach (S i))) in Hrun as [Hc Hb]; [|done]. split; [done|].
      intros _. by apply Hb.
    + inversion Hrun; subst. split; [done|]. intros _.
      rewrite events_since_refl. apply not_elem_of_nil.
  - pose proof (run_trace _ _ _ _ _ Hrun) as E1.
    apply (IH (TBody _)) in Hrun as [Hc Hb]; [|intros a Ha; by eapply Hquiet].
    split; [done|]. intros _.
    rewrite (events_since_log _ _ _ E1). rewrite not_elem_of_cons. split; [done|].
    by apply Hb.
  - inversion Hrun; subst. split; [done|]. intros _.
    rewrite events_since_refl. apply not_elem_of_nil.
  - destruct (run behav fuel (TAct a) s) as [s1|] eqn:E; [|done].
    pose proof (run_trace _ _ _ _ _ E) as E1.
    pose proof (run_trace _ _ _ _ _ Hrun) as E2.
    simpl in Ht.
    assert (Ha : mutation a = None) by (apply Ht; apply list_elem_of_here).
    apply (IH (TAct a)) in E as [Hc1 Hb1]; [|done].
    apply (IH (TBody acts)) in Hrun as [Hc2 Hb2];
      [|intros a' Ha'; apply Ht; by apply list_elem_of_further].
    split; [congruence|]. intros _.
    rewrite (events_since_trans s s1 s') by done.
    rewrite elem_of_app. intros [?|?]; [by apply Hb1|by apply Hb2].
Qed.

End Quiet.

(** X2. When no listener body calls [setCurrentUser] or [clear] (bodies
    may subscribe and unsubscribe), the cached value changes only through
    the caller's own mutation: whatever else runs leaves it alone, and
    once [setCurrentUser(user)] or [clear()] has returned,
    [getCurrentUser()] gives the value just stored. *)
Theorem cached_value_changes_only_by_mutation behav :
  no_mutation behav →
  (∀ fuel t s s', reads_only t → run behav fuel t s = Some s' →
     getCurrentUser s' = getCurrentUser s) ∧
  (∀ fuel a user s s', mutation a = Some user → run behav fuel (TAct a) s = Some s' →
     getCurrentUser s' = user).
Proof.
  intros Hq. split.
  - intros fuel t s s' Ht Hrun. by apply (reads_only_keeps behav Hq fuel t s s' Ht Hrun).
  - intros fuel a user s s' Ha Hrun.
    destruct fuel as [|fuel]; [done|].
    assert (Hn : run behav fuel TNotify (assign user s) = Some s').
    { destruct a; simpl in Ha; inversion Ha; subst; exact Hrun. }
    apply (reads_only_keeps behav Hq fuel TNotify (assign user s) s' I) in Hn as [Hc _].
    exact Hc.
Qed.

Lemma cached_value_changes_only_by_mutation_witness :
  ∃ s', run leaving 9 (TAct (ASetCurrentUser (Some alice))) two_listeners = Some s' ∧
        getCurrentUser s' = Some alice.
Proof.
  assert (H : no_mutation leaving).
  { intros [|l] tr [u|] a Hin; simpl in Hin; try by apply elem_of_nil in Hin.
    apply list_elem_of_singleton in Hin. by subst. }
  eexists. split; [reflexivity|].
  apply (proj2 (cached_value_changes_only_by_mutation leaving H) 9
           (ASetCurrentUser (Some alice)) (Some alice) two_listeners _ eq_refl eq_refl).
Defined.

(** X3. When no listener body calls [setCurrentUser] or [clear], the
    fan-out of a mutation is never interrupted by another one: its log is
    one [notify] from begin to end with no second begin inside. *)
Theorem fanout_flat_without_reentrant_mutation behav fuel a user s s' :
  no_mutation behav → mutation a = Some user →
  run behav fuel (TAct a) s = Some s' →
  nested_fanout 0 (events_since s s') = false ∧
  ∃ inner, events_since s s' = EvNotifyBegin :: inner ++ [EvNotifyEnd] ∧
           EvNotifyBegin ∉ inner.
Proof.
  intros Hq Ha Hrun.
  destruct fuel as [|[|fuel]]; [done| |].
  { destruct a; simpl in Ha; inversion Ha; subst; done. }
  assert (Hn : ∃ s0, run behav fuel (TForEach 0) (log EvNotifyBegin (assign user s)) = Some s0
                     ∧ s' = log EvNotifyEnd s0).
  { assert (Hn : run behav (S fuel) TNotify (assign user s) = Some s').
    { destruct a; simpl in Ha; inversion Ha; subst; exact Hrun. }
    simpl in Hn. destruct (run behav fuel (TForEach 0) _) as [s0|]; [|done].
    inversion Hn. by exists s0. }
  destruct Hn as (s0 & E & ->).
  pose proof (run_trace _ _ _ _ _ E) as E1.
  apply (reads_only_keeps behav Hq fuel (TForEach 0)) in E as [_ Hb]; [|done].
  specialize (Hb ltac:(done)).
  assert (Hev : events_since s (log EvNotifyEnd s0)
                = EvNotifyBegin :: events_since (log EvNotifyBegin (assign user s)) s0
                    ++ [EvNotifyEnd]).
  { apply events_since_eq. simpl. rewrite E1. simpl. by rewrite <- !app_assoc. }
  rewrite Hev. split; [|eexists; by split].
  simpl. apply nested_fanout_without_begin.
  rewrite elem_of_app, list_elem_of_singleton. intros [?|?]; done.
Qed.

Lemma fanout_flat_without_reentrant_mutation_witness :
  ∃ s', run leaving 9 (TAct (ASetCurrentUser (Some alice))) two_listeners = Some s' ∧
        nested_fanout 0 (events_since two_listeners s') = false.
Proof.
  assert (H : no_mutation leaving).
  { intros [|l] tr [u|] a Hin; simpl in Hin; try by apply elem_of_nil in Hin.
    apply list_elem_of_singleton in Hin. by subst. }
  eexists. split; [reflexivity|].
  exact (proj1 (fanout_flat_without_reentrant_mutation leaving 9
                  (ASetCurrentUser (Some alice)) (Some alice) two_listeners _ H eq_refl eq_refl)).
Defined.

Lemma elem_of_set_delete_other l l' es :
  l' ≠ l → Some l' ∈ es → Some l' ∈ set_delete l es.
Proof.
  intros Hne. induction es as [|e r IH]; simpl; [done|].
  rewrite elem_of_cons. intros [<-|Hin].
  - rewrite decide_False by congruence. apply list_elem_of_here.
  - case_decide; apply list_elem_of_further; auto.
Qed.

Lemma live_delete_appended l es :
  Some l ∉ es → live (set_delete l (es ++ [Some l])) = live es.
Proof.
  induction es as [|e r IH]; simpl.
  - intros _. by rewrite decide_True.
  - rewrite not_elem_of_cons. intros [Hne Hr].
    rewrite decide_False by congruence.
    destruct e; simpl; by rewrite IH.
Qed.

(** X4. Subscribing a listener that does not call back and then calling
    the closure that [subscribe] returned undoes the subscription: the
    listener is no longer registered, every other listener is registered
    exactly as before, and the cached value is untouched.  This also holds
    when the listener was already registered before: the set holds it
    once, so the one closure removes it altogether.  When it was not, the
    listeners registered afterwards are those registered before, in the
    same order. *)
Theorem subscribe_then_unsubscribe behav l s fuel :
  wf s → behav l (trace s) (cachedUser s) = [] → 3 ≤ fuel →
  ∃ s1 s2, subscribe behav fuel l s = Some s1 ∧
           unsubscribe behav fuel l s1 = Some s2 ∧
           getCurrentUser s2 = getCurrentUser s ∧
           (Some l ∉ listeners s2) ∧
           (∀ l', l' ≠ l → Some l' ∈ listeners s2 ↔ Some l' ∈ listeners s) ∧
           (Some l ∉ listeners s → live (listeners s2) = live (listeners s)).
Proof.
  intros Hwf Hbody Hfuel.
  destruct fuel as [|[|[|fuel]]]; [lia|lia|lia|].
  eexists _, _. split; [unfold subscribe; simpl; by rewrite Hbody|].
  split; [reflexivity|]. simpl. split; [done|]. split; [|split].
  - apply set_delete_gone. by apply live_set_add.
  - intros l' Hne. split.
    + intros Hin. apply elem_of_set_delete, elem_of_set_add in Hin as [?|?]; done.
    + intros Hin. apply elem_of_set_delete_other; [done|].
      apply elem_of_set_add. by right.
  - intros Hout. unfold set_add. rewrite decide_False by done.
    by apply live_delete_appended.
Qed.

Lemma subscribe_then_unsubscribe_witness :
  ∃ s1 s2, subscribe silent 3 1 two_listeners = Some s1 ∧
           unsubscribe silent 3 1 s1 = Some s2 ∧
           getCurrentUser s2 = None ∧
           (Some 1 ∉ listeners s2) ∧
           (∀ l', l' ≠ 1 → Some l' ∈ listeners s2 ↔ Some l' ∈ listeners two_listeners) ∧
           (Some 1 ∉ listeners two_listeners →
            live (listeners s2) = live (listeners two_listeners)).
Proof.
  apply (subscribe_then_unsubscribe silent 1 two_listeners 3).
  - unfold wf. simpl. apply NoDup_cons. split; [|apply NoDup_singleton].
    intros Hin. apply list_elem_of_singleton in Hin. discriminate Hin.
  - reflexivity.
  - lia.
Defined.

Lemma filter_other (l : Listener) (ls : list Listener) :
  l ∉ ls → filter (λ x, x ≠ l) ls = ls.
Proof.
  induction ls as [|x r IH]; [done|].
  rewrite not_elem_of_cons. intros [Hne Hr].
  rewrite filter_cons_True by congruence. by rewrite IH.
Qed.

Lemma live_set_delete_filter l es :
  NoDup (live es) → live (set_delete l es) = filter (λ x, x ≠ l) (live es).
Proof.
  induction es as [|e r IH]; simpl; [done|].
  case_decide as E.
  - subst e. simpl. rewrite NoDup_cons. intros [Hn _].
    rewrite filter_cons_False by (intros HH; by apply HH).
    by rewrite filter_other.
  - destruct e as [l'|]; simpl; [|done].
    rewrite NoDup_cons. intros [_ Hd].
    rewrite filter_cons_True by congruence. by rewrite IH.
Qed.

(** X17. A registered listener that unsubscribes and subscribes again
    (its body not calling back) keeps its place no longer: it is now the
    last to be notified, the other listeners keeping their order, and it
    has been called once more with the current value. *)
Theorem resubscribed_listener_goes_last behav l s fuel :
  wf s → Some l ∈ listeners s → 3 ≤ fuel →
  (∀ tr v, behav l tr v = []) →
  ∃ s1 s2, unsubscribe behav fuel l s = Some s1 ∧
           subscribe behav fuel l s1 = Some s2 ∧
           live (listeners s2) = filter (λ x, x ≠ l) (live (listeners s)) ++ [l] ∧
           calls_of l (events_since s s2) = [cachedUser s] ∧
           getCurrentUser s2 = getCurrentUser s.
Proof.
  intros Hwf Hin Hfuel Hbody.
  destruct fuel as [|[|[|fuel]]]; [lia|lia|lia|].
  eexists _, _. split; [reflexivity|].
  split; [unfold subscribe; simpl; by rewrite Hbody|]. simpl.
  split; [|split; [|done]].
  - unfold set_add. rewrite decide_False by (by apply set_delete_gone).
    unfold live at 1. rewrite omap_app. simpl.
    by rewrite <- (live_set_delete_filter l _ Hwf).
  - rewrite (events_since_eq s _ [EvUnsub l; EvCall l (cachedUser s)]).
    + simpl. by rewrite decide_True.
    + simpl. by rewrite <- app_assoc.
Qed.

Lemma resubscribed_listener_goes_last_witness :
  ∃ s1 s2, unsubscribe silent 3 0 two_listeners = Some s1 ∧
           subscribe silent 3 0 s1 = Some s2 ∧
           live (listeners s2) = filter (λ x, x ≠ 0) (live (listeners two_listeners)) ++ [0] ∧
           calls_of 0 (events_since two_listeners s2) = [cachedUser two_listeners] ∧
           getCurrentUser s2 = getCurrentUser two_listeners.
Proof.
  apply (resubscribed_listener_goes_last silent 0 two_listeners 3).
  - unfold wf. simpl. apply NoDup_cons. split; [|apply NoDup_singleton].
    intros Hin. apply list_elem_of_singleton in Hin. discriminate Hin.
  - simpl. apply list_elem_of_here.
  - lia.
  - reflexivity.
Defined.

End CacheExtras.

(** * Further properties of the account-settings controller *)

Module SettingsExtras.

Import UserCache Scenarios AccountSettings.

#[local] Open Scope string_scope.
#[local] Open Scope nat_scope.

(** The subscription callback of a mounted component, in one piece. *)
Lemma onUserChange_absent c :
  isMounted c = true →
  onUserChange None c
  = mkCtrl None (defaultFormState None) false (isSubmitting c) (fieldErrors c)
           (successMessage c) (loadError c) false true.
Proof. destruct c. simpl. intros ->. reflexivity. Qed.

Lemma onUserChange_present u c :
  isMounted c = true →
  onUserChange (Some u) c
  = mkCtrl (Some u)
           (if hasInitializedRef c then formState c else defaultFormState (Some u))
           false (isSubmitting c) (fieldErrors c) (successMessage c) "" true true.
Proof.
  destruct c as [? ? ? ? ? ? ? hi ?]. simpl. intros ->. by destruct hi.
Qed.

Section Delivery.

Variable self : Listener.

Lemma deliver_cons e events c :
  deliver self (e :: events) c =
  deliver self events
    match e with
    | EvCall l v => if decide (l = self) then onUserChange v c else c
    | _ => c
    end.
Proof. reflexivity. Qed.

Lemma deliver_app events1 events2 c :
  deliver self (events1 ++ events2) c = deliver self events2 (deliver self events1 c).
Proof. unfold deliver. apply foldl_app. Qed.

Lemma deliver_no_calls events c :
  calls_of self events = [] → deliver self events c = c.
Proof.
  revert c. induction events as [|e r IH]; intros c H; [done|].
  rewrite deliver_cons. destruct e as [| |l v|l]; simpl in H; auto.
  case_decide; [done|auto].
Qed.

Lemma deliver_calls v (ls : list Listener) c :
  NoDup ls →
  deliver self (map (λ l, EvCall l v) ls) c
  = if decide (self ∈ ls) then onUserChange v c else c.
Proof.
  revert c. induction ls as [|l r IH]; intros c Hd; cbn [map].
  - destruct (decide (self ∈ [])) as [Hin|_]; [by apply elem_of_nil in Hin|done].
  - apply NoDup_cons in Hd as [Hn Hd]. rewrite deliver_cons, (IH _ Hd).
    destruct (decide (l = self)) as [->|Hne].
    + destruct (decide (self ∈ r)); [done|].
      destruct (decide (self ∈ self :: r)) as [_|Hout]; [done|].
      exfalso. apply Hout, list_elem_of_here.
    + destruct (decide (self ∈ r)) as [Hin|Hout].
      * destruct (decide (self ∈ l :: r)) as [_|Hout]; [done|].
        exfalso. by apply Hout, list_elem_of_further.
      * destruct (decide (self ∈ l :: r)) as [Hin|_]; [|done].
        apply elem_of_cons in Hin as [?|?]; [congruence|done].
Qed.

Lemma deliver_fanout v es c :
  NoDup (live es) →
  deliver self (fanout v es) c
  = if decide (Some self ∈ es) then onUserChange v c else c.
Proof.
  intros Hd. unfold fanout. rewrite deliver_cons, deliver_app, (deliver_calls _ _ _ Hd).
  simpl. destruct (decide (self ∈ live es)) as [Hin|Hout].
  - by rewrite decide_True by (by apply CacheProofs.elem_of_live).
  - rewrite decide_False; [done|]. by rewrite <- CacheProofs.elem_of_live.
Qed.

End Delivery.

Section Facts.

Variable trim : string → string.
Variable toLowerCase : string → string.
Variable behav : Behaviour.
Variable self : Listener.

Lemma passive_set v s fuel :
  passive behav → length (listeners s) + 4 ≤ fuel →
  ∃ s', UserCache.setCurrentUser behav fuel v s = Some s' ∧
        cachedUser s' = v ∧ listeners s' = listeners s ∧
        events_since s s' = fanout v (listeners s).
Proof.
  intros Hp Hfuel. unfold UserCache.setCurrentUser.
  rewrite (CacheProofs.passive_mutation behav (ASetCurrentUser v) v s fuel Hp eq_refl Hfuel).
  eexists. split; [reflexivity|]. repeat split. by apply CacheProofs.events_since_eq.
Qed.

Lemma passive_clear s fuel :
  passive behav → length (listeners s) + 4 ≤ fuel →
  ∃ s', UserCache.clear behav fuel s = Some s' ∧
        cachedUser s' = None ∧ listeners s' = listeners s ∧
        events_since s s' = fanout None (listeners s).
Proof.
  intros Hp Hfuel. unfold UserCache.clear.
  rewrite (CacheProofs.passive_mutation behav AClear None s fuel Hp eq_refl Hfuel).
  eexists. split; [reflexivity|]. repeat split. by apply CacheProofs.events_since_eq.
Qed.

Lemma passive_subscribe s fuel :
  passive behav → 3 ≤ fuel →
  UserCache.subscribe behav fuel self s = Some (log (EvCall self (cachedUser s)) (add self s)).
Proof.
  intros Hp Hfuel. unfold UserCache.subscribe.
  destruct fuel as [|[|[|fuel]]]; [lia|lia|lia|]. simpl. by rewrite Hp.
Qed.

(** X5. Unmounting guards the subscription callback and the fetch, not
    a submission in flight.  For a component that is no longer mounted,
    calls of its callback change nothing, a fetch that resolves does not
    reach the cache and a fetch that fails sets no load error; but the
    continuation of [handleSubmit] tests no flag: a submission that
    resolves still stores the returned user in the cache, and one answered
    with status 401 still clears the cache and navigates to the login
    page (the listeners taken not to call back). *)
Theorem unmount_guards_callback_and_fetch_only w :
  isMounted (ctrl w) = false →
  (∀ events, deliver self events (ctrl w) = ctrl w) ∧
  (∀ fuel user, fetchUser_resolved behav self fuel user w = Some w) ∧
  (∀ error, fetchUser_rejected error w = w) ∧
  (passive behav → ∀ fuel updatedUser, length (listeners (cache w)) + 4 ≤ fuel →
     ∃ w', handleSubmit_resolved behav self fuel updatedUser w = Some w' ∧
           cachedUser (cache w') = Some updatedUser ∧
           navigated w' = navigated w) ∧
  (passive behav → ∀ fuel data, length (listeners (cache w)) + 4 ≤ fuel →
     ∃ w', handleSubmit_rejected behav self fuel (AxiosResponse 401 data) w = Some w' ∧
           cachedUser (cache w') = None ∧
           navigated w' = (navigated w ++ ["/login"])%list).
Proof.
  intros Hm. split; [|split; [|split; [|split]]].
  - generalize (ctrl w) Hm. intros c Hc events. revert c Hc.
    induction events as [|e r IH]; intros c Hc; [done|].
    rewrite deliver_cons. destruct e as [| |l v|l]; auto.
    case_decide; [|auto]. unfold onUserChange. rewrite Hc. simpl. auto.
  - intros fuel user. unfold fetchUser_resolved. by rewrite Hm.
  - intros error. unfold fetchUser_rejected. by rewrite Hm.
  - intros Hp fuel u Hfuel. unfold handleSubmit_resolved.
    destruct (passive_set (Some u) (cache w) fuel Hp Hfuel) as (s' & -> & Hc & _).
    eexists. split; [reflexivity|]. done.
  - intros Hp fuel data Hfuel. unfold handleSubmit_rejected. simpl.
    destruct (passive_clear (cache w) fuel Hp Hfuel) as (s' & -> & Hc & _).
    eexists. split; [reflexivity|]. done.
Qed.

(** X6. Once the form has been seeded, cache updates that carry a user
    never overwrite it: the component takes over the new user and leaves
    every field of the form as typed.  In particular a fetch that resolves
    then (the listeners not calling back) changes the cache and the
    current user, not the form. *)
Theorem background_updates_keep_the_form c :
  isMounted c = true → hasInitializedRef c = true →
  (∀ events, (∀ l, EvCall l None ∉ events) →
     formState (deliver self events c) = formState c ∧
     hasInitializedRef (deliver self events c) = true) ∧
  (∀ w user fuel, ctrl w = c → passive behav → wf (cache w) →
     length (listeners (cache w)) + 4 ≤ fuel →
     ∃ w', fetchUser_resolved behav self fuel user w = Some w' ∧
           cachedUser (cache w') = Some user ∧
           formState (ctrl w') = formState c ∧
           (Some self ∈ listeners (cache w) → currentUser (ctrl w') = Some user)).
Proof.
  intros Hm Hi.
  assert (Hone : ∀ u c0, isMounted c0 = true → hasInitializedRef c0 = true →
                 formState (onUserChange (Some u) c0) = formState c0 ∧
                 hasInitializedRef (onUserChange (Some u) c0) = true ∧
                 isMounted (onUserChange (Some u) c0) = true ∧
                 currentUser (onUserChange (Some u) c0) = Some u).
  { intros u c0 Hm0 Hi0. unfold onUserChange. rewrite Hm0. simpl. rewrite Hi0. done. }
  split.
  - intros events. revert c Hm Hi. induction events as [|e r IH]; intros c Hm Hi Hev; [done|].
    assert (Hr : ∀ l, EvCall l None ∉ r).
    { intros l Hin. apply (Hev l). by apply list_elem_of_further. }
    rewrite deliver_cons. destruct e as [| |l [u|]|l]; auto.
    + case_decide; [|auto].
      destruct (Hone u c Hm Hi) as (Hf & Hi' & Hm' & _).
      destruct (IH _ Hm' Hi' Hr) as [-> ->]. done.
    + exfalso. apply (Hev l), list_elem_of_here.
  - intros w user fuel Hw Hp Hwf Hfuel. unfold fetchUser_resolved. rewrite Hw, Hm.
    destruct (passive_set (Some user) (cache w) fuel Hp Hfuel) as (s' & -> & Hc & Hl & Hev).
    eexists. split; [reflexivity|]. simpl. rewrite Hev, deliver_fanout by done.
    split; [done|].
    destruct (decide (Some self ∈ listeners (cache w))) as [Hin|Hout].
    + destruct (Hone user c Hm Hi) as (Hf & _ & _ & Hu). done.
    + done.
Qed.

(** X7. An answer with status 401 to a submission logs the form out,
    and the next login seeds it again: after the 401 the component holds
    no user and an empty form and is not submitting; when the cache is
    then given a user, the component takes that user and its form shows
    that user's data, whatever was typed before. *)
Theorem unauthorized_resets_form_and_next_login_reseeds w data fuel :
  passive behav → wf (cache w) → Some self ∈ listeners (cache w) →
  isMounted (ctrl w) = true →
  length (listeners (cache w)) + 4 ≤ fuel →
  ∃ w1, handleSubmit_rejected behav self fuel (AxiosResponse 401 data) w = Some w1 ∧
        currentUser (ctrl w1) = None ∧
        formState (ctrl w1) = defaultFormState None ∧
        hasInitializedRef (ctrl w1) = false ∧
        isSubmitting (ctrl w1) = false ∧ isLoading (ctrl w1) = false ∧
        ∀ user, ∃ s2, UserCache.setCurrentUser behav fuel (Some user) (cache w1) = Some s2 ∧
          let c2 := deliver self (events_since (cache w1) s2) (ctrl w1) in
          currentUser c2 = Some user ∧
          formState c2 = defaultFormState (Some user) ∧
          hasInitializedRef c2 = true ∧
          phase c2 = Ready.
Proof.
  intros Hp Hwf Hself Hm Hfuel. unfold handleSubmit_rejected. simpl.
  destruct (passive_clear (cache w) fuel Hp Hfuel) as (s1 & -> & Hc1 & Hl1 & Hev1).
  eexists. split; [reflexivity|]. simpl.
  rewrite Hev1, deliver_fanout, decide_True by done.
  rewrite (onUserChange_absent _ Hm). simpl.
  do 5 (split; [done|]).
  intros user.
  destruct (passive_set (Some user) s1 fuel Hp) as (s2 & -> & Hc2 & Hl2 & Hev2); [by rewrite Hl1|].
  eexists. split; [reflexivity|]. simpl.
  rewrite Hev2, Hl1, deliver_fanout, decide_True by done.
  rewrite onUserChange_present by done. done.
Qed.

(** X8. Mounting fetches only when the cache is empty.  Over a cache
    that holds a user the component subscribes, is [Ready] at once with
    the form showing that user, and sends nothing; over an empty cache it
    subscribes, sends the one request for the current user and is
    [Loading]. *)
Theorem mount_fetches_only_without_cached_user s nav reqs fuel :
  passive behav → 3 ≤ fuel →
  ∃ w', effect behav self fuel (mkWorld (render_initial s) s nav reqs) = Some w' ∧
        Some self ∈ listeners (cache w') ∧
        isMounted (ctrl w') = true ∧
        cachedUser (cache w') = cachedUser s ∧
        navigated w' = nav ∧
        currentUser (ctrl w') = cachedUser s ∧
        formState (ctrl w') = defaultFormState (cachedUser s) ∧
        match cachedUser s with
        | Some _ => requests w' = reqs ∧ phase (ctrl w') = Ready
        | None => requests w' = (reqs ++ [GetCurrentUser])%list ∧ phase (ctrl w') = Loading
        end.
Proof.
  intros Hp Hfuel. unfold effect. simpl.
  rewrite (passive_subscribe s fuel Hp Hfuel).
  rewrite (CacheProofs.events_since_eq s _ [EvCall self (cachedUser s)]) by done.
  rewrite deliver_cons, decide_True by done.
  assert (Hin : Some self ∈ set_add self (listeners s))
    by (apply CacheProofs.elem_of_set_add; by left).
  unfold render_initial, getCurrentUser, onUserChange.
  destruct (cachedUser s) as [u|] eqn:Hu; simpl.
  - eexists. split; [reflexivity|]. simpl. rewrite Hu. done.
  - eexists. split; [reflexivity|]. simpl. rewrite Hu. done.
Qed.

(** X9. The user returned by the initial fetch reaches the form through
    the cache: a mounted, subscribed component that has not seeded its
    form yet ends with the cache and itself holding that user, the form
    showing that user's data with empty password fields, no load error,
    and nothing sent or navigated. *)
Theorem fetched_user_seeds_form w user fuel :
  passive behav → wf (cache w) → Some self ∈ listeners (cache w) →
  isMounted (ctrl w) = true → hasInitializedRef (ctrl w) = false →
  length (listeners (cache w)) + 4 ≤ fuel →
  ∃ w', fetchUser_resolved behav self fuel user w = Some w' ∧
        cachedUser (cache w') = Some user ∧
        currentUser (ctrl w') = Some user ∧
        formState (ctrl w') = defaultFormState (Some user) ∧
        hasInitializedRef (ctrl w') = true ∧
        isLoading (ctrl w') = false ∧ loadError (ctrl w') = "" ∧
        requests w' = requests w ∧ navigated w' = navigated w.
Proof.
  intros Hp Hwf Hself Hm Hi Hfuel. unfold fetchUser_resolved. rewrite Hm.
  destruct (passive_set (Some user) (cache w) fuel Hp Hfuel) as (s' & -> & Hc & Hl & Hev).
  eexists. split; [reflexivity|]. simpl.
  rewrite Hev, deliver_fanout, decide_True by done.
  unfold onUserChange. rewrite Hm. simpl. rewrite Hi. done.
Qed.

(** X10. The cleanup of the effect detaches the component: it is marked
    unmounted, its callback is no longer registered, and (nobody
    subscribing that callback again) no later [setCurrentUser] or [clear]
    calls it or changes the component's state. *)
Theorem unmount_detaches w fuel :
  wf (cache w) → 1 ≤ fuel →
  ∃ w1, cleanup behav self fuel w = Some w1 ∧
        isMounted (ctrl w1) = false ∧
        (Some self ∉ listeners (cache w1)) ∧
        cachedUser (cache w1) = cachedUser (cache w) ∧
        (never_subscribes behav self →
         ∀ fuel' a s2, is_Some (mutation a) →
           run behav fuel' (TAct a) (cache w1) = Some s2 →
           calls_of self (events_since (cache w1) s2) = [] ∧
           deliver self (events_since (cache w1) s2) (ctrl w1) = ctrl w1).
Proof.
  intros Hwf Hfuel. unfold cleanup, UserCache.unsubscribe.
  destruct fuel as [|fuel]; [lia|]. simpl.
  eexists. split; [reflexivity|]. simpl.
  assert (Hgone : Some self ∉ set_delete self (listeners (cache w)))
    by (by apply CacheProofs.set_delete_gone).
  do 3 (split; [done|]).
  intros Hb fuel' a s2 [u Ha] Hrun.
  assert (Hcalls : calls_of self
                     (events_since (delete_listener self (log (EvUnsub self) (cache w))) s2) = []).
  { eapply proj2, (CacheProofs.unregistered_stays behav fuel' self (TAct a)); [done| |done|done].
    destruct a; simpl in *; done. }
  split; [done|]. by apply deliver_no_calls.
Qed.

(** X11. [handleSubmit] sends a request only for a loaded user and a
    change-set with at least one key, and never one whose password and
    confirmation differ or are empty; it then marks the component as
    submitting and leaves the form alone.  When it returns instead, no
    request has been sent and neither the cache, nor the navigation, nor
    the submitting flag has changed; without a loaded user it returns with
    the general message that the account has not loaded. *)
Theorem request_sent_only_with_changes w :
  (∀ p w', handleSubmit trim toLowerCase w = Awaiting p w' →
     is_Some (currentUser (ctrl w)) ∧
     0 < keys_length p ∧
     payload_password p = payload_password_confirmation p ∧
     (∀ x, payload_password p = Some x → x ≠ "") ∧
     isSubmitting (ctrl w') = true ∧
     formState (ctrl w') = formState (ctrl w) ∧
     requests w' = (requests w ++ [UpdateCurrentUser p])%list ∧
     cache w' = cache w ∧ navigated w' = navigated w) ∧
  (∀ w', handleSubmit trim toLowerCase w = Returned w' →
     requests w' = requests w ∧ cache w' = cache w ∧ navigated w' = navigated w ∧
     isSubmitting (ctrl w') = isSubmitting (ctrl w)) ∧
  (currentUser (ctrl w) = None →
     ∃ w', handleSubmit trim toLowerCase w = Returned w' ∧
           fieldErrors (ctrl w')
           = {["general" := "Unable to update profile until your account loads."]} ∧
           successMessage (ctrl w') = "").
Proof.
  split; [|split].
  - intros p w'. unfold handleSubmit. simpl.
    destruct (currentUser (ctrl w)) as [cu|] eqn:Hcu; [|done].
    destruct (hasPasswordChanges (formState (ctrl w))) eqn:Hpw; simpl.
    + case_bool_decide as Hne; [done|].
      case_bool_decide as Hk; [done|]. intros HA. inversion HA; subst. clear HA.
      unfold build_payload at 2 3 4. simpl. rewrite Hpw.
      split; [by eexists|]. split; [lia|]. split; [by rewrite Hne|]. split; [|done].
      intros x Hx. inversion Hx; subst.
      apply SettingsProofs.hasPasswordChanges_true in Hpw as [?|?]; [done|congruence].
    + case_bool_decide as Hk; [done|]. intros HA. inversion HA; subst. clear HA.
      unfold build_payload at 2 3 4. simpl. rewrite Hpw.
      split; [by eexists|]. split; [lia|]. done.
  - intros w'. unfold handleSubmit. simpl.
    destruct (currentUser (ctrl w)) as [cu|]; [|intros HR; by inversion HR].
    destruct (_ && _); [intros HR; by inversion HR|].
    case_bool_decide as Hk; [|done]. intros HR. by inversion HR.
  - intros Hcu. unfold handleSubmit. simpl. rewrite Hcu.
    eexists. split; [reflexivity|]. done.
Qed.

Lemma handleSubmit_unchanged w cu :
  currentUser (ctrl w) = Some cu →
  trim (username (formState (ctrl w))) = Types.username cu →
  toLowerCase (trim (email (formState (ctrl w)))) = toLowerCase (Types.email cu) →
  trim (avatar (formState (ctrl w))) = nullish (Types.avatar cu) "" →
  password (formState (ctrl w)) = "" →
  passwordConfirmation (formState (ctrl w)) = "" →
  handleSubmit trim toLowerCase w
  = Returned (with_ctrl
      (setSuccessMessage "Nothing to update — your settings are already current."
         (setSuccessMessage "" (setFieldErrors ∅ (ctrl w)))) w).
Proof.
  intros Hcu Hu He Ha Hp Hc.
  unfold handleSubmit. simpl. rewrite Hcu.
  unfold build_payload, hasProfileChanges, trimmedAvatar, hasPasswordChanges. simpl.
  rewrite Hcu, SettingsProofs.or_else_empty, Hu, He, Ha, Hp, Hc. simpl.
  rewrite (bool_decide_false (Types.username cu ≠ Types.username cu)),
          (bool_decide_false (toLowerCase (Types.email cu) ≠ toLowerCase (Types.email cu))),
          (bool_decide_false (nullish (Types.avatar cu) "" ≠ nullish (Types.avatar cu) ""))
    by (intros HH; apply HH; reflexivity).
  reflexivity.
Qed.

(** X12. Saving is stable.  After a submission the service accepted, the
    component holds the returned user, the form shows that user's data
    with empty password fields, the success message is set and the
    component is no longer submitting; when [trim] leaves the returned
    username, email and avatar as they are, submitting again at once is
    answered with "nothing to update" and sends no request. *)
Theorem saved_profile_resubmits_as_noop w updatedUser fuel :
  passive behav → wf (cache w) → Some self ∈ listeners (cache w) →
  isMounted (ctrl w) = true →
  trim (Types.username updatedUser) = Types.username updatedUser →
  trim (Types.email updatedUser) = Types.email updatedUser →
  trim (nullish (Types.avatar updatedUser) "") = nullish (Types.avatar updatedUser) "" →
  length (listeners (cache w)) + 4 ≤ fuel →
  ∃ w1, handleSubmit_resolved behav self fuel updatedUser w = Some w1 ∧
        currentUser (ctrl w1) = Some updatedUser ∧
        formState (ctrl w1)
        = mkForm (Types.username updatedUser) (Types.email updatedUser)
                 (nullish (Types.avatar updatedUser) "") "" "" ∧
        successMessage (ctrl w1) = "Profile updated successfully." ∧
        isSubmitting (ctrl w1) = false ∧
        ∃ w2, handleSubmit trim toLowerCase w1 = Returned w2 ∧
              successMessage (ctrl w2)
              = "Nothing to update — your settings are already current." ∧
              requests w2 = requests w ∧
              formState (ctrl w2) = formState (ctrl w1).
Proof.
  intros Hp Hwf Hself Hm Hu He Ha Hfuel. unfold handleSubmit_resolved.
  destruct (passive_set (Some updatedUser) (cache w) fuel Hp Hfuel)
    as (s' & -> & Hc & Hl & Hev).
  eexists. split; [reflexivity|]. simpl.
  rewrite Hev, deliver_fanout, decide_True by done.
  rewrite onUserChange_present by done. simpl.
  do 4 (split; [done|]).
  eexists. split.
  - apply (handleSubmit_unchanged _ updatedUser); simpl; by rewrite ?Hu, ?He, ?Ha.
  - done.
Qed.

(** X13. A submission the service refused with anything but status 401
    costs the user only the passwords: username, email and avatar stay as
    typed, the current user, the cache, the navigation and the requests
    are as before, and the component is no longer submitting.  The error
    map is the one built from the body when the response has one, and the
    general message for an error without a response; when the body of the
    response is [null], reading [data.errors] throws: the error map stays
    as it was and the exception leaves [handleSubmit]. *)
Theorem failed_save_keeps_edits w error fuel :
  (∀ data, error ≠ AxiosResponse 401 data) →
  ∃ w', handleSubmit_rejected behav self fuel error w = Some w' ∧
        username (formState (ctrl w')) = username (formState (ctrl w)) ∧
        email (formState (ctrl w')) = email (formState (ctrl w)) ∧
        avatar (formState (ctrl w')) = avatar (formState (ctrl w)) ∧
        currentUser (ctrl w') = currentUser (ctrl w) ∧
        isSubmitting (ctrl w') = false ∧
        fieldErrors (ctrl w')
        = match error with
          | AxiosResponse _ (Some data) => validation_errors data
          | AxiosResponse _ None => fieldErrors (ctrl w)
          | OtherFailure =>
            {["general" := "An unexpected error occurred while saving your settings."]}
          end ∧
        handleSubmit_rejected_throws error
        = match error with
          | AxiosResponse _ None => true
          | _ => false
          end ∧
        cache w' = cache w ∧ navigated w' = navigated w ∧ requests w' = requests w.
Proof.
  intros Hne. unfold handleSubmit_rejected, handleSubmit_rejected_throws.
  destruct error as [status data|].
  - case_bool_decide as Hs; [subst; by destruct (Hne data)|].
    destruct data; eexists; (split; [reflexivity|]); done.
  - eexists. split; [reflexivity|]. done.
Qed.

Lemma validation_errors_without_record data :
  data_errors data = None →
  ∃ m, validation_errors data = {["general" := m]} ∧ m ≠ "" ∧
       (∀ e, data_error data = Some e → e ≠ "" → m = e) ∧
       (data_error data = None ∨ data_error data = Some "" →
        m = "Failed to update account settings.").
Proof.
  intros Hn. unfold validation_errors. rewrite Hn.
  destruct (data_error data) as [e|].
  - unfold truthy. case_bool_decide as He.
    + exists e. split; [done|]. split; [done|]. split.
      * intros e' He' _. congruence.
      * intros [?|Hs]; [done|]. congruence.
    + eexists. split; [reflexivity|]. split; [done|]. split; [|done].
      intros e' He' Hne. congruence.
  - eexists. split; [reflexivity|]. split; [done|]. split; [done|done].
Qed.

(** X14. A submission refused with a status other than 401 and a body
    that is an object without a per-field record leaves exactly one
    message in the error map, in the general slot, and never an empty one:
    the body's [error] text when that is a non-empty string, the stock
    message otherwise. *)
Theorem general_message_without_field_errors w status data fuel :
  status ≠ 401%Z → data_errors data = None →
  ∃ w' m, handleSubmit_rejected behav self fuel (AxiosResponse status (Some data)) w = Some w' ∧
          handleSubmit_rejected_throws (AxiosResponse status (Some data)) = false ∧
          fieldErrors (ctrl w') = {["general" := m]} ∧ m ≠ "" ∧
          (∀ e, data_error data = Some e → e ≠ "" → m = e) ∧
          (data_error data = None ∨ data_error data = Some "" →
           m = "Failed to update account settings.").
Proof.
  intros Hs Hn.
  destruct (validation_errors_without_record data Hn) as (m & Hv & Hm & He & Hd).
  unfold handleSubmit_rejected. rewrite bool_decide_false by done.
  eexists _, m. split; [reflexivity|]. split; [done|]. simpl. by rewrite Hv.
Qed.

(** X18. A failed initial fetch leaves a component that cannot save:
    it shows the load error, is in the [LoadError] state with the form as
    it was, and a submission from there is answered with the general
    message that the account has not loaded, without any request and
    without touching what was typed. *)
Theorem failed_fetch_blocks_submission w error :
  isMounted (ctrl w) = true → currentUser (ctrl w) = None →
  isSubmitting (ctrl w) = false →
  let w1 := fetchUser_rejected error w in
  phase (ctrl w1) = LoadError ∧
  formState (ctrl w1) = formState (ctrl w) ∧
  ∃ w2, handleSubmit trim toLowerCase w1 = Returned w2 ∧
        fieldErrors (ctrl w2)
        = {["general" := "Unable to update profile until your account loads."]} ∧
        formState (ctrl w2) = formState (ctrl w) ∧
        requests w2 = requests w ∧
        phase (ctrl w2) = LoadError.
Proof.
  intros Hm Hcu Hs w1. subst w1. unfold fetchUser_rejected. rewrite Hm. simpl.
  split; [unfold phase; simpl; by rewrite Hs, Hcu|]. split; [done|].
  unfold handleSubmit. simpl. rewrite Hcu.
  eexists. split; [reflexivity|]. simpl. do 3 (split; [done|]).
  unfold phase. simpl. by rewrite Hs, Hcu.
Qed.

End Facts.

Lemma general_message_without_field_errors_witness :
  ∃ w' m, handleSubmit_rejected silent 0 0
            (AxiosResponse 503 (Some (mkData (Some "Session store unavailable") None)))
            (submitted (mounted renaming)) = Some w' ∧
          handleSubmit_rejected_throws
            (AxiosResponse 503 (Some (mkData (Some "Session store unavailable") None))) = false ∧
          fieldErrors (ctrl w') = {["general" := m]} ∧ m ≠ "" ∧
          (∀ e, Some "Session store unavailable" = Some e → e ≠ "" → m = e) ∧
          (Some "Session store unavailable" = None ∨ Some "Session store unavailable" = Some "" →
           m = "Failed to update account settings.").
Proof.
  apply (general_message_without_field_errors silent 0 (submitted (mounted renaming)) 503
           (mkData (Some "Session store unavailable") None) 0).
  - discriminate.
  - reflexivity.
Defined.

Lemma slot_of_shown key : slot_of key ∈ own_keys ∨ slot_of key = "general".
Proof.
  unfold slot_of. case_bool_decide.
  - left. unfold own_keys. simpl. do 4 apply list_elem_of_further. apply list_elem_of_here.
  - case_bool_decide; [by left|by right].
Qed.

Lemma foldl_map_entry_lookup slot (entries : list (string * Messages)) (m : gmap string string) :
  (∀ kv, kv ∈ entries → kv.1 ∉ object_prototype_keys) →
  foldl map_entry m entries !! slot
  = match last (omap (λ kv : string * Messages,
                        if decide (slot_of kv.1 = slot) then Some (message_of kv.2) else None)
                     entries) with
    | Some message => Some message
    | None => m !! slot
    end.
Proof.
  revert m. induction entries as [|[k v] r IH]; intros m Hk; [done|].
  change (foldl map_entry m ((k, v) :: r)) with (foldl map_entry (map_entry m (k, v)) r).
  rewrite IH by (intros kv Hin; apply Hk; by apply list_elem_of_further).
  rewrite SettingsProofs.map_entry_slot by (apply (Hk (k, v)), list_elem_of_here).
  remember (slot_of k) as sk eqn:Hsk.
  change (omap ?f ((k, v) :: r)) with
    (match f (k, v) with Some y => y :: omap f r | None => omap f r end).
  simpl. rewrite <- Hsk.
  destruct (decide (sk = slot)) as [E|E].
  - rewrite last_cons. destruct (last _); [done|]. by rewrite E, lookup_insert_eq.
  - destruct (last _); [done|]. by rewrite lookup_insert_ne.
Qed.

(** X15. When no key of the server's error record is a name inherited
    from [Object.prototype], no message is lost and none lands out of
    sight: a slot of the error map holds the message of the last entry
    whose key belongs to that slot (nothing when there is none), and the
    only slots filled are the five form fields and the general slot. *)
Theorem field_errors_land_in_shown_slots e entries :
  (∀ kv, kv ∈ entries → kv.1 ∉ object_prototype_keys) →
  (∀ slot, validation_errors (mkData e (Some entries)) !! slot
           = last (omap (λ kv : string * Messages,
                           if decide (slot_of kv.1 = slot) then Some (message_of kv.2) else None)
                        entries)) ∧
  (∀ slot, is_Some (validation_errors (mkData e (Some entries)) !! slot) →
           slot ∈ own_keys ∨ slot = "general").
Proof.
  intros Hk.
  assert (H1 : ∀ slot, validation_errors (mkData e (Some entries)) !! slot
           = last (omap (λ kv : string * Messages,
                           if decide (slot_of kv.1 = slot) then Some (message_of kv.2) else None)
                        entries)).
  { intros slot. unfold validation_errors. simpl.
    rewrite (foldl_map_entry_lookup slot entries ∅ Hk), lookup_empty.
    by destruct (last _). }
  split; [exact H1|].
  intros slot [message Hm]. rewrite H1 in Hm.
  apply last_Some_elem_of, list_elem_of_omap in Hm as ([k v] & _ & Hkv). simpl in Hkv.
  case_decide as E; [|done]. rewrite <- E. apply slot_of_shown.
Qed.

Lemma field_errors_land_in_shown_slots_witness :
  validation_errors
    (mkData None (Some [("base", One "is invalid"); ("email", Many ["is taken"; "is too long"]);
                        ("plan", One "is unknown")])) !! "general"
  = Some "is unknown".
Proof.
  refine (eq_trans (proj1 (field_errors_land_in_shown_slots None
            [("base", One "is invalid"); ("email", Many ["is taken"; "is too long"]);
             ("plan", One "is unknown")] _) "general") eq_refl).
  intros kv Hin.
  assert (Hout : ∀ k : string, bool_decide (k ∈ object_prototype_keys) = false →
                 k ∉ object_prototype_keys).
  { intros k Hk Hin'. by rewrite (bool_decide_true _ Hin') in Hk. }
  repeat (apply elem_of_cons in Hin as [->|Hin]; [by apply Hout|]).
  by apply elem_of_nil in Hin.
Defined.

(** X16. Typing changes the form and nothing else, field by field: the
    edited field holds the typed value, every other field and every other
    part of the component is as before, a second edit of the same field
    replaces the first, and edits of different fields give the same form
    in either order. *)
Theorem field_edits_are_independent field value c :
  let c' := handleFieldChange field value c in
  field_value field (formState c') = value ∧
  (∀ other, other ≠ field →
     field_value other (formState c') = field_value other (formState c)) ∧
  setFormState (λ _, formState c) c' = c ∧
  (∀ value', handleFieldChange field value' c' = handleFieldChange field value' c) ∧
  (∀ other value', other ≠ field →
     handleFieldChange other value' c'
     = handleFieldChange field value (handleFieldChange other value' c)).
Proof.
  destruct c as [cu [u e a p pc] il isub fe sm le hi im].
  split; [by destruct field|]. split; [|split; [|split]].
  - intros other Hne. by destruct field, other.
  - by destruct field.
  - intros value'. by destruct field.
  - intros other value' Hne. by destruct field, other.
Qed.

Lemma request_sent_only_with_changes_witness :
  ∃ w', handleSubmit trim_ascii lower_ascii loading = Returned w' ∧
        fieldErrors (ctrl w')
        = {["general" := "Unable to update profile until your account loads."]} ∧
        successMessage (ctrl w') = "".
Proof.
  exact (proj2 (proj2 (request_sent_only_with_changes trim_ascii lower_ascii loading)) eq_refl).
Defined.

Lemma field_edits_are_independent_witness :
  handleFieldChange FEmail "a@b.example" (handleFieldChange FUsername "alicia" (ctrl loading))
  = handleFieldChange FUsername "alicia" (handleFieldChange FEmail "a@b.example" (ctrl loading)).
Proof.
  apply (proj2 (proj2 (proj2 (proj2
           (field_edits_are_independent FUsername "alicia" (ctrl loading)))))
           FEmail "a@b.example").
  discriminate.
Defined.

(** *** The further properties at concrete components *)

Lemma mounted_wf form : wf (cache (mounted form)).
Proof. unfold wf. simpl. apply NoDup_singleton. Qed.

Lemma mounted_subscribed form : Some 0 ∈ listeners (cache (mounted form)).
Proof. simpl. apply list_elem_of_here. Qed.

Example unmounted_reached : cleanup silent 0 1 (mounted untouched) = Some unmounted.
Proof. reflexivity. Qed.

Lemma unmount_guards_callback_and_fetch_only_witness :
  fetchUser_resolved silent 0 5 bob unmounted = Some unmounted ∧
  ∃ w', handleSubmit_resolved silent 0 5 bob unmounted = Some w' ∧
        cachedUser (cache w') = Some bob ∧
        navigated w' = navigated unmounted.
Proof.
  destruct (unmount_guards_callback_and_fetch_only silent 0 unmounted eq_refl)
    as (_ & H2 & _ & H4 & _).
  split; [exact (H2 5 bob)|].
  apply (H4 SettingsProofs.passive_silent 5 bob). simpl. lia.
Defined.

Lemma background_updates_keep_the_form_witness :
  ∃ w', fetchUser_resolved silent 0 5 bob (mounted mistyped) = Some w' ∧
        cachedUser (cache w') = Some bob ∧
        formState (ctrl w') = mistyped ∧
        (Some 0 ∈ listeners (cache (mounted mistyped)) → currentUser (ctrl w') = Some bob).
Proof.
  apply (proj2 (background_updates_keep_the_form silent 0 (ctrl (mounted mistyped))
                  eq_refl eq_refl) (mounted mistyped) bob 5 eq_refl
               SettingsProofs.passive_silent (mounted_wf mistyped)).
  simpl. lia.
Defined.

Lemma unauthorized_resets_form_and_next_login_reseeds_witness :
  ∃ w1, handleSubmit_rejected silent 0 5 (AxiosResponse 401 (Some (mkData None None)))
          (submitted (mounted renaming)) = Some w1 ∧
        currentUser (ctrl w1) = None ∧
        formState (ctrl w1) = defaultFormState None.
Proof.
  destruct (unauthorized_resets_form_and_next_login_reseeds silent 0
              (submitted (mounted renaming)) (Some (mkData None None)) 5
              SettingsProofs.passive_silent (mounted_wf renaming) (mounted_subscribed renaming)
              eq_refl ltac:(simpl; lia)) as (w1 & H1 & H2 & H3 & _).
  exists w1. by split.
Defined.

Lemma mount_fetches_only_without_cached_user_witness :
  ∃ w', effect silent 0 3 (mkWorld (render_initial initial) initial [] []) = Some w' ∧
        requests w' = [GetCurrentUser] ∧ phase (ctrl w') = Loading.
Proof.
  destruct (mount_fetches_only_without_cached_user silent 0 initial [] [] 3
              SettingsProofs.passive_silent ltac:(lia)) as (w' & H1 & _ & _ & _ & _ & _ & _ & H2).
  exists w'. by split.
Defined.

Lemma fetched_user_seeds_form_witness :
  ∃ w', fetchUser_resolved silent 0 5 alice loading = Some w' ∧
        cachedUser (cache w') = Some alice ∧
        currentUser (ctrl w') = Some alice ∧
        formState (ctrl w') = defaultFormState (Some alice) ∧
        hasInitializedRef (ctrl w') = true ∧
        isLoading (ctrl w') = false ∧ loadError (ctrl w') = "" ∧
        requests w' = requests loading ∧ navigated w' = navigated loading.
Proof.
  apply (fetched_user_seeds_form silent 0 loading alice 5 SettingsProofs.passive_silent).
  - unfold wf. simpl. apply NoDup_singleton.
  - simpl. apply list_elem_of_here.
  - reflexivity.
  - reflexivity.
  - simpl. lia.
Defined.

Lemma unmount_detaches_witness :
  ∃ w1, cleanup silent 0 1 (mounted untouched) = Some w1 ∧
        isMounted (ctrl w1) = false ∧
        (Some 0 ∉ listeners (cache w1)).
Proof.
  destruct (unmount_detaches silent 0 (mounted untouched) 1 (mounted_wf untouched) ltac:(lia))
    as (w1 & H1 & H2 & H3 & _).
  exists w1. by split.
Defined.

Lemma saved_profile_resubmits_as_noop_witness :
  ∃ w1, handleSubmit_resolved silent 0 5 alice_renamed (submitted (mounted renaming)) = Some w1 ∧
        currentUser (ctrl w1) = Some alice_renamed ∧
        ∃ w2, handleSubmit trim_ascii lower_ascii w1 = Returned w2 ∧
              requests w2 = requests (submitted (mounted renaming)).
Proof.
  destruct (saved_profile_resubmits_as_noop trim_ascii lower_ascii silent 0
              (submitted (mounted renaming)) alice_renamed 5
              SettingsProofs.passive_silent (mounted_wf renaming) (mounted_subscribed renaming)
              eq_refl eq_refl eq_refl eq_refl ltac:(simpl; lia))
    as (w1 & H1 & H2 & _ & _ & _ & w2 & H3 & _ & H4 & _).
  exists w1. split; [done|]. split; [done|]. exists w2. by split.
Defined.

Lemma failed_save_keeps_edits_witness :
  (∃ w', handleSubmit_rejected silent 0 0
           (AxiosResponse 422 (Some (mkData None (Some [("email", One "has already been taken")]))))
           (submitted (mounted renaming)) = Some w' ∧
         username (formState (ctrl w')) = "alicia") ∧
  (∃ w', handleSubmit_rejected silent 0 0 (AxiosResponse 500 None)
           (submitted (mounted renaming)) = Some w' ∧
         username (formState (ctrl w')) = "alicia" ∧
         fieldErrors (ctrl w') = ∅ ∧
         handleSubmit_rejected_throws (AxiosResponse 500 None) = true).
Proof.
  split.
  - destruct (failed_save_keeps_edits silent 0 (submitted (mounted renaming))
                (AxiosResponse 422
                   (Some (mkData None (Some [("email", One "has already been taken")]))))
                0 ltac:(intros data H; discriminate H)) as (w' & H1 & H2 & _).
    exists w'. by split.
  - destruct (failed_save_keeps_edits silent 0 (submitted (mounted renaming))
                (AxiosResponse 500 None)
                0 ltac:(intros data H; discriminate H))
      as (w' & H1 & H2 & _ & _ & _ & _ & H7 & H8 & _).
    exists w'. split; [done|]. split; [done|]. split; [exact H7|exact H8].
Defined.

Lemma failed_fetch_blocks_submission_witness :
  phase (ctrl (fetchUser_rejected OtherFailure loading)) = LoadError ∧
  formState (ctrl (fetchUser_rejected OtherFailure loading)) = formState (ctrl loading) ∧
  ∃ w2, handleSubmit trim_ascii lower_ascii (fetchUser_rejected OtherFailure loading)
        = Returned w2 ∧
        fieldErrors (ctrl w2)
        = {["general" := "Unable to update profile until your account loads."]} ∧
        formState (ctrl w2) = formState (ctrl loading) ∧
        requests w2 = requests loading ∧
        phase (ctrl w2) = LoadError.
Proof.
  exact (failed_fetch_blocks_submission trim_ascii lower_ascii loading OtherFailure
           eq_refl eq_refl eq_refl).
Defined.

End SettingsExtras.
